(** * Tracker: date windowing, bucketing and entry management

    A shallow embedding of the two front-end variants of the consumption
    tracker:

    - [src/app.js]: the GitHub-only variant (module [AppJs]);
    - [src/unnamed/part_000]: the variant with a local-storage mode, the
      first-entry-anchored reporting window, the table view and the overview
      (module [Part000]).

    [aggregateByDay], [aggregateByWeek] and [formatChartLabel] are textually
    identical in the two files and are embedded once. *)

From Stdlib Require Import ZArith List String Ascii Bool Lia.
From Stdlib Require Import DecimalString DecimalZ.
From Stdlib Require Import Sorting.Sorted.
From Stdlib Require Import Sorting.Permutation.
Import ListNotations.

Open Scope string_scope.
Open Scope Z_scope.

(** ** The part of the JavaScript [Date] object the source relies on

    A [Date] is its time value: milliseconds since the epoch, an integer
    (the source only builds dates from [new Date()] and from the ISO strings
    it wrote itself, so the time value is never NaN).  The local time zone is
    a fixed offset [tz], in milliseconds east of UTC; zones that change their
    offset (daylight saving) are outside this model. *)

Module JsDate.

Definition MS_PER_DAY : Z := 86400000.

(** Day number and time of day of the local wall clock. *)
Definition localDay (tz t : Z) : Z := (t + tz) / MS_PER_DAY.
Definition localTimeOfDay (tz t : Z) : Z := (t + tz) mod MS_PER_DAY.

(** [date.setHours(h, m, s, ms)]: same local calendar day, new time of day. *)
Definition setHours (tz t h m s ms : Z) : Z :=
  t - localTimeOfDay tz t + (h * 3600000 + m * 60000 + s * 1000 + ms).

(** [date.setDate(date.getDate() + k)]: the local calendar date moves by
    [k] days, the time of day is kept. *)
Definition addDays (t k : Z) : Z := t + k * MS_PER_DAY.

(** [date.getDay()]: 0 is Sunday; day 0 of the epoch was a Thursday. *)
Definition getDay (tz t : Z) : Z := (localDay tz t + 4) mod 7.

(** Proleptic Gregorian calendar date (year, month 1..12, day 1..31) of a
    day number counted from 1970-01-01. *)
Definition civil_from_days (z0 : Z) : Z * Z * Z :=
  let z := z0 + 719468 in
  let era := z / 146097 in
  let doe := z - era * 146097 in
  let yoe := (doe - doe / 1460 + doe / 36524 - doe / 146096) / 365 in
  let y := yoe + era * 400 in
  let doy := doe - (365 * yoe + yoe / 4 - yoe / 100) in
  let mp := (5 * doy + 2) / 153 in
  let d := doy - (153 * mp + 2) / 5 + 1 in
  let m := if mp <? 10 then mp + 3 else mp - 9 in
  (if m <=? 2 then y + 1 else y, m, d).

Definition getFullYear (tz t : Z) : Z := fst (fst (civil_from_days (localDay tz t))).
(** [date.getMonth()] is zero-based. *)
Definition getMonth (tz t : Z) : Z := snd (fst (civil_from_days (localDay tz t))) - 1.
Definition getDate (tz t : Z) : Z := snd (civil_from_days (localDay tz t)).

(** [date.toISOString().split('T')[0]]: the UTC calendar date.  The source
    only compares these strings for equality; the text "YYYY-MM-DD" is kept
    as the triple it prints. *)
Definition isoDate (t : Z) : Z * Z * Z := civil_from_days (t / MS_PER_DAY).

Definition isoDate_eqb (a b : Z * Z * Z) : bool :=
  let '(y1, m1, d1) := a in
  let '(y2, m2, d2) := b in
  (y1 =? y2) && (m1 =? m2) && (d1 =? d2).

(** [n.toString()] of an integer. *)
Definition toString (n : Z) : string := NilEmpty.string_of_int (Z.to_int n).

(** [date.getHours()] and [date.getMinutes()], on the local wall clock. *)
Definition getHours (tz t : Z) : Z := localTimeOfDay tz t / 3600000.
Definition getMinutes (tz t : Z) : Z := (localTimeOfDay tz t mod 3600000) / 60000.

(** [s.padStart(2, '0')] *)
Definition padStart2 (s : string) : string :=
  match String.length s with
  | O => "00"
  | S O => "0" ++ s
  | _ => s
  end.

(** [Math.ceil(a / b)] for integers [a] and [b > 0].  The source divides in
    floating point; for the differences of two dates a few centuries apart
    the quotient is far from the rounding that could move it across an
    integer, and the integer ceiling is what [Math.ceil] returns. *)
Definition ceilDiv (a b : Z) : Z := - ((- a) / b).

End JsDate.

Import JsDate.

(** ** Data model *)

(** An element of [currentData.entries].  [timestamp] is the time value of
    [new Date(entry.timestamp)]; [category] is whatever string the stored
    JSON carries. *)
Record Entry : Type := mkEntry {
  id : string;
  timestamp : Z;
  category : string
}.

(** The object built by [aggregateByDay] and [aggregateByWeek]. *)
Record ChartData : Type := mkChartData {
  labels : list string;
  beer : list nat;
  wine : list nat;
  liquor : list nat;
  smoking : list nat
}.

(** The [stats] object and [total] of [renderSummaryStats]. *)
Record SummaryStats : Type := mkSummaryStats {
  stats_beer : nat;
  stats_wine : nat;
  stats_liquor : nat;
  stats_smoking : nat;
  total : nat
}.

(** [entries.filter(e => e.category === c).length] *)
Definition countCategory (c : string) (entries : list Entry) : nat :=
  List.length (filter (fun e => (category e =? c)%string) entries).

Definition months : list string :=
  ["Jan"; "Feb"; "Mar"; "Apr"; "May"; "Jun"; "Jul"; "Aug"; "Sep"; "Oct"; "Nov"; "Dec"].

(** ** Aggregation (identical in both files) *)

Section Aggregation.

Variable tz : Z.

(** Both branches of the source build the same text. *)
Definition formatChartLabel (date : Z) (isWeek : bool) : string :=
  if isWeek
  then nth (Z.to_nat (getMonth tz date)) months "undefined" ++ " " ++ toString (getDate tz date)
  else nth (Z.to_nat (getMonth tz date)) months "undefined" ++ " " ++ toString (getDate tz date).

(** One pass of the body of the [while] loops: push a label and the four
    counts of [bucketEntries]. *)
Definition pushBucket (data : ChartData) (label : string) (bucketEntries : list Entry) : ChartData :=
  {| labels := labels data ++ [label];
     beer := beer data ++ [countCategory "beer" bucketEntries];
     wine := wine data ++ [countCategory "wine" bucketEntries];
     liquor := liquor data ++ [countCategory "liquor" bucketEntries];
     smoking := smoking data ++ [countCategory "smoking" bucketEntries] |}.

Definition emptyChartData : ChartData :=
  {| labels := []; beer := []; wine := []; liquor := []; smoking := [] |}.

(** Number of passes of [while (current <= endDate) { ...; current += step }]. *)
Definition loopFuel (current endDate step : Z) : nat :=
  Z.to_nat ((endDate - current) / step + 1).

Fixpoint aggregateByDay_loop (fuel : nat) (entries : list Entry) (endDate current : Z)
         (data : ChartData) : ChartData :=
  match fuel with
  | O => data
  | S fuel' =>
      if current <=? endDate then
        let dateStr := isoDate current in
        let label := formatChartLabel current false in
        let dayEntries :=
          filter (fun e => isoDate_eqb (isoDate (timestamp e)) dateStr) entries in
        aggregateByDay_loop fuel' entries endDate (addDays current 1)
                            (pushBucket data label dayEntries)
      else data
  end.

Definition aggregateByDay (entries : list Entry) (startDate endDate : Z) : ChartData :=
  let current := setHours tz startDate 0 0 0 0 in
  aggregateByDay_loop (loopFuel current endDate MS_PER_DAY) entries endDate current
                      emptyChartData.

Fixpoint aggregateByWeek_loop (fuel : nat) (entries : list Entry) (endDate current : Z)
         (data : ChartData) : ChartData :=
  match fuel with
  | O => data
  | S fuel' =>
      if current <=? endDate then
        let weekEnd := addDays current 6 in
        let label := formatChartLabel current true in
        let weekEntries :=
          filter (fun e => (current <=? timestamp e) && (timestamp e <=? weekEnd)) entries in
        aggregateByWeek_loop fuel' entries endDate (addDays current 7)
                             (pushBucket data label weekEntries)
      else data
  end.

Definition aggregateByWeek (entries : list Entry) (startDate endDate : Z) : ChartData :=
  let current := setHours tz startDate 0 0 0 0 in
  let dayOfWeek := getDay tz current in
  let current := addDays current (- dayOfWeek) in
  aggregateByWeek_loop (loopFuel current endDate (7 * MS_PER_DAY)) entries endDate current
                       emptyChartData.

End Aggregation.

(** What one pass of [updateChart] hands to [renderChart] and
    [renderSummaryStats]. *)
Record ChartPass : Type := mkChartPass {
  startDate : Z;
  endDate : Z;
  filteredEntries : list Entry;
  aggregatedData : ChartData;
  summary : SummaryStats
}.

(** [entries.filter(entry => entryDate >= startDate && entryDate <= endDate)] *)
Definition filterRange (entries : list Entry) (startDate endDate : Z) : list Entry :=
  filter (fun entry => (startDate <=? timestamp entry) && (timestamp entry <=? endDate)) entries.

(** [renderSummaryStats] counts the four known categories. *)
Definition countStats (entries : list Entry) : nat * nat * nat * nat :=
  (countCategory "beer" entries, countCategory "wine" entries,
   countCategory "liquor" entries, countCategory "smoking" entries).

(** ** Persistence state shared by both files

    One run of a handler ([addEntry], [deleteEntry], [saveData]) is taken as
    a whole, from the call to the settling of its promise: what the outside
    world answers during the run is an argument of the function, and no other
    handler runs in between. *)

(** [currentData]: the entries and the [sha] revision of the remote file
    ([null] is [None]). *)
Record Data : Type := mkData {
  entries : list Entry;
  sha : option string
}.

(** What [showStatus(message, type)] leaves in the status element. *)
Record Status : Type := mkStatus {
  message : string;
  type : string
}.

(** The body of the PUT request of [saveData]; the commit message is left
    out, nothing reads it back. *)
Record PutBody : Type := mkPutBody {
  body_entries : list Entry;
  body_sha : option string
}.

(** [githubRequest] either resolves with a response whose [content.sha] is
    the new revision, or throws [Error(message)] (any non-2xx answer, a stale
    [sha] included). *)
Inductive PutResult : Type :=
| PutOk (newSha : string)
| PutError (errorMessage : string).

(** [localStorage.setItem] either stores the value or throws. *)
Inductive SetItemResult : Type :=
| Stored
| SetItemThrows (errorMessage : string).

(** How a call of one of the [async] functions ends: it returns, or an
    exception it does not catch rejects its promise. *)
Inductive Completion : Type :=
| Returned
| Rejected (errorMessage : string).

(** [if (currentData.sha) body.sha = currentData.sha]: [null] and the empty
    string are both falsy. *)
Definition truthySha (s : option string) : option string :=
  match s with
  | Some v => if (v =? "")%string then None else Some v
  | None => None
  end.

(** [s] as a condition: a string is truthy when it is not empty. *)
Definition truthy (s : string) : bool := negb (s =? "")%string.

(** [[...entries].sort((a, b) => new Date(a.timestamp) - new Date(b.timestamp))]:
    ascending by time value; [Array.prototype.sort] is stable, so for this
    comparator every conforming engine returns the list built here. *)
Fixpoint insertByTimestamp (e : Entry) (sorted : list Entry) : list Entry :=
  match sorted with
  | [] => [e]
  | x :: rest =>
      if timestamp e <=? timestamp x then e :: sorted
      else x :: insertByTimestamp e rest
  end.

Fixpoint sortByTimestamp (l : list Entry) : list Entry :=
  match l with
  | [] => []
  | e :: rest => insertByTimestamp e (sortByTimestamp rest)
  end.

(** What [githubRequest('GET', DATA_FILE)] and the decoding of its answer
    give: the [entries] of the decoded content ([None] when the key is
    absent) and the [sha] of the file; or an exception with its message (a
    non-2xx answer, or a content that does not decode). *)
Inductive GetResult : Type :=
| GetOk (contentEntries : option (list Entry)) (dataSha : string)
| GetThrows (errorMessage : string).

(** [s.includes(search)] *)
Fixpoint includes (search s : string) : bool :=
  String.prefix search s
  || match s with
     | EmptyString => false
     | String _ rest => includes search rest
     end.

(** [formatDateTime(date)], identical in both files. *)
Definition formatDateTime (tz date : Z) : string :=
  let month := nth (Z.to_nat (getMonth tz date)) months "undefined" in
  let day := getDate tz date in
  let year := getFullYear tz date in
  let hours := padStart2 (toString (getHours tz date)) in
  let minutes := padStart2 (toString (getMinutes tz date)) in
  month ++ " " ++ toString day ++ ", " ++ toString year ++ " " ++ hours ++ ":" ++ minutes.

(** [[...entries].sort((a, b) => new Date(b.timestamp) - new Date(a.timestamp))]:
    descending by time value, stable. *)
Fixpoint insertNewestFirst (e : Entry) (sorted : list Entry) : list Entry :=
  match sorted with
  | [] => [e]
  | x :: rest =>
      if timestamp x <=? timestamp e then e :: sorted
      else x :: insertNewestFirst e rest
  end.

Fixpoint sortNewestFirst (l : list Entry) : list Entry :=
  match l with
  | [] => []
  | e :: rest => insertNewestFirst e (sortNewestFirst rest)
  end.

(** One [entry-item] of the log: its class, the date text and the id its
    Delete button passes to [deleteEntry].  The emoji and the capitalised
    category name of the text are left out. *)
Record EntryItem : Type := mkEntryItem {
  item_category : string;
  item_formatted : string;
  item_deleteId : string
}.

(** [renderEntries()], identical in both files: [None] is the "No entries
    yet" message, [Some items] the items in document order. *)
Definition renderEntries (tz : Z) (es : list Entry) : option (list EntryItem) :=
  match es with
  | [] => None
  | _ =>
      let sortedEntries := sortNewestFirst es in
      Some (map (fun entry =>
                   {| item_category := category entry;
                      item_formatted := formatDateTime tz (timestamp entry);
                      item_deleteId := id entry |})
                sortedEntries)
  end.

(** ** [src/app.js] *)

Module AppJs.

Record Config : Type := mkConfig {
  token : string;
  owner : string;
  repo : string
}.

(** The module-level variables [config] and [currentData], and the status
    element. *)
Record State : Type := mkState {
  config : Config;
  currentData : Data;
  status : option Status
}.

Definition isConfigured (st : State) : bool :=
  truthy (token (config st)) && truthy (owner (config st)) && truthy (repo (config st)).

Definition showStatus (msg ty : string) (st : State) : State :=
  {| config := config st; currentData := currentData st;
     status := Some (mkStatus msg ty) |}.

Definition setCurrentData (d : Data) (st : State) : State :=
  {| config := config st; currentData := d; status := status st |}.

(** [PUT] stands for [githubRequest('PUT', DATA_FILE, body)]. *)
Definition saveData (PUT : PutBody -> PutResult) (newEntries : list Entry) (st : State)
  : State * Completion :=
  let body := {| body_entries := newEntries; body_sha := truthySha (sha (currentData st)) |} in
  let st := showStatus "Saving..." "info" st in
  match PUT body with
  | PutOk newSha =>
      let st := setCurrentData {| entries := newEntries; sha := Some newSha |} st in
      (showStatus "Saved successfully" "success" st, Returned)
  | PutError msg =>
      (showStatus ("Error saving: " ++ msg) "error" st, Returned)
  end.

(** [dateNow] is the value of [Date.now()], [newDate] that of the
    [new Date()] evaluated right after it. *)
Definition addEntry (dateNow newDate : Z) (PUT : PutBody -> PutResult) (cat : string)
           (st : State) : State * Completion :=
  if negb (isConfigured st) then
    (showStatus "Please configure GitHub settings first" "error" st, Returned)
  else
    let entry := {| id := toString dateNow; timestamp := newDate; category := cat |} in
    let updatedEntries := (entries (currentData st) ++ [entry])%list in
    saveData PUT updatedEntries st.

(** [confirmed] is the answer of the [confirm] dialog. *)
Definition deleteEntry (confirmed : bool) (PUT : PutBody -> PutResult) (i : string)
           (st : State) : State * Completion :=
  if negb confirmed then (st, Returned)
  else
    let updatedEntries := filter (fun e => negb (id e =? i)%string) (entries (currentData st)) in
    saveData PUT updatedEntries st.

Definition renderSummaryStats (es : list Entry) : SummaryStats :=
  let '(b, w, l, s) := countStats es in
  {| stats_beer := b; stats_wine := w; stats_liquor := l; stats_smoking := s;
     total := (b + w + w + l + s)%nat |}.

(** [now] is the instant of the two [new Date()] calls that open the
    function. *)
Definition updateChart (tz : Z) (es : list Entry) (period now : Z) : ChartPass :=
  let endDate := now in
  let startDate := addDays now (- period) in
  let filteredEntries := filterRange es startDate endDate in
  let aggregatedData :=
    if period <=? 30 then aggregateByDay tz filteredEntries startDate endDate
    else aggregateByWeek tz filteredEntries startDate endDate in
  {| startDate := startDate; endDate := endDate; filteredEntries := filteredEntries;
     aggregatedData := aggregatedData; summary := renderSummaryStats filteredEntries |}.

(** [GET] is the outcome of the request and of the decoding of its answer,
    [PUT] answers the save of the 404 branch. *)
Definition loadData (GET : GetResult) (PUT : PutBody -> PutResult) (st : State)
  : State * Completion :=
  if negb (isConfigured st) then
    (showStatus "Please configure GitHub settings first" "error" st, Returned)
  else
    let st := showStatus "Loading data..." "info" st in
    match GET with
    | GetOk contentEntries dataSha =>
        let st := setCurrentData
                    {| entries := match contentEntries with Some es => es | None => [] end;
                       sha := Some dataSha |} st in
        (showStatus "Data loaded successfully" "success" st, Returned)
    | GetThrows msg =>
        if includes "404" msg then saveData PUT [] st
        else (showStatus ("Error loading data: " ++ msg) "error" st, Returned)
    end.

End AppJs.

(** ** [src/unnamed/part_000] *)

Module Part000.

Record Config : Type := mkConfig {
  token : string;
  owner : string;
  repo : string;
  mode : string
}.

(** The module-level variables [config] and [currentData], the status
    element, and the value stored under [LOCAL_DATA_KEY] ([None] when the
    key is absent). *)
Record State : Type := mkState {
  config : Config;
  currentData : Data;
  status : option Status;
  localData : option Data
}.

(** What the outside world answers during one call: the PUT of
    [githubRequest] and [localStorage.setItem]. *)
Record Env : Type := mkEnv {
  PUT : PutBody -> PutResult;
  setItem : SetItemResult
}.

Definition isConfigured (st : State) : bool :=
  truthy (token (config st)) && truthy (owner (config st)) && truthy (repo (config st)).

Definition isLocal (st : State) : bool := (mode (config st) =? "local")%string.

Definition showStatus (msg ty : string) (st : State) : State :=
  {| config := config st; currentData := currentData st;
     status := Some (mkStatus msg ty); localData := localData st |}.

Definition setCurrentData (d : Data) (st : State) : State :=
  {| config := config st; currentData := d; status := status st;
     localData := localData st |}.

Definition saveDataLocal (env : Env) (st : State) : State * Completion :=
  match setItem env with
  | Stored =>
      let st := {| config := config st; currentData := currentData st;
                   status := status st; localData := Some (currentData st) |} in
      (showStatus "Saved locally" "success" st, Returned)
  | SetItemThrows msg => (st, Rejected msg)
  end.

Definition saveData (env : Env) (newEntries : list Entry) (st : State)
  : State * Completion :=
  if isLocal st then
    let st := setCurrentData {| entries := newEntries; sha := sha (currentData st) |} st in
    saveDataLocal env st
  else
    let body := {| body_entries := newEntries;
                   body_sha := truthySha (sha (currentData st)) |} in
    let st := showStatus "Saving..." "info" st in
    match PUT env body with
    | PutOk newSha =>
        let st := setCurrentData {| entries := newEntries; sha := Some newSha |} st in
        (showStatus "Saved successfully" "success" st, Returned)
    | PutError msg =>
        (showStatus ("Error saving: " ++ msg) "error" st, Returned)
    end.

(** [dateNow] is the value of [Date.now()], [newDate] that of the
    [new Date()] evaluated right after it. *)
Definition addEntry (dateNow newDate : Z) (env : Env) (cat : string) (st : State)
  : State * Completion :=
  if negb (isLocal st) && negb (isConfigured st) then
    (showStatus "Please configure GitHub settings first" "error" st, Returned)
  else
    let entry := {| id := toString dateNow; timestamp := newDate; category := cat |} in
    let updatedEntries := (entries (currentData st) ++ [entry])%list in
    saveData env updatedEntries st.

(** [confirmed] is the answer of the [confirm] dialog. *)
Definition deleteEntry (confirmed : bool) (env : Env) (i : string) (st : State)
  : State * Completion :=
  if negb confirmed then (st, Returned)
  else
    let updatedEntries := filter (fun e => negb (id e =? i)%string) (entries (currentData st)) in
    saveData env updatedEntries st.

Definition renderSummaryStats (es : list Entry) : SummaryStats :=
  let '(b, w, l, s) := countStats es in
  {| stats_beer := b; stats_wine := w; stats_liquor := l; stats_smoking := s;
     total := (b + w + l + s)%nat |}.

Section WithZone.

Variable tz : Z.

(** The date logic that opens [updateChart], and again [renderTableView]
    and [renderOverview]: the pair [(startDate, endDate)].  [now] is the
    instant of the two [new Date()] calls. *)
Definition dateRange (es : list Entry) (period now : Z) : Z * Z :=
  let endDate := setHours tz now 23 59 59 999 in
  let startDate := now in
  match sortByTimestamp es with
  | first :: _ =>
      let firstEntryDate := setHours tz (timestamp first) 0 0 0 0 in
      let periodEndDate := addDays firstEntryDate (period - 1) in
      let startDate := firstEntryDate in
      let endDate := if periodEndDate <? endDate then periodEndDate else endDate in
      (startDate, endDate)
  | [] =>
      let startDate := addDays startDate (- period) in
      (startDate, endDate)
  end.

Definition updateChart (es : list Entry) (period now : Z) : ChartPass :=
  let '(startDate, endDate) := dateRange es period now in
  let filteredEntries := filterRange es startDate endDate in
  let aggregatedData :=
    if period <=? 30 then aggregateByDay tz filteredEntries startDate endDate
    else aggregateByWeek tz filteredEntries startDate endDate in
  {| startDate := startDate; endDate := endDate; filteredEntries := filteredEntries;
     aggregatedData := aggregatedData; summary := renderSummaryStats filteredEntries |}.

(** An element of [dailyData]. *)
Record DayRow : Type := mkDayRow {
  row_date : Z;
  row_beer : nat;
  row_wine : nat;
  row_liquor : nat;
  row_smoking : nat;
  row_total : nat
}.

(** The content of the table body: the "No data for this period"
    message, or one row per element, in this order. *)
Inductive TableBody : Type :=
| NoData
| Rows (rows : list DayRow).

Fixpoint renderTableView_loop (fuel : nat) (filteredEntries : list Entry)
         (endDate current : Z) (dailyData : list DayRow) : list DayRow :=
  match fuel with
  | O => dailyData
  | S fuel' =>
      if current <=? endDate then
        let dateStr := isoDate current in
        let dayEntries :=
          filter (fun e => isoDate_eqb (isoDate (timestamp e)) dateStr) filteredEntries in
        let b := countCategory "beer" dayEntries in
        let w := countCategory "wine" dayEntries in
        let l := countCategory "liquor" dayEntries in
        let s := countCategory "smoking" dayEntries in
        let tot := (b + w + l + s)%nat in
        let dailyData :=
          if (0 <? tot)%nat
          then (dailyData ++ [mkDayRow current b w l s tot])%list
          else dailyData in
        renderTableView_loop fuel' filteredEntries endDate (addDays current 1) dailyData
      else dailyData
  end.

Definition renderTableView (es : list Entry) (period now : Z) : TableBody :=
  let '(startDate, endDate) := dateRange es period now in
  let filteredEntries := filterRange es startDate endDate in
  let current := setHours tz startDate 0 0 0 0 in
  let dailyData :=
    renderTableView_loop (loopFuel current endDate MS_PER_DAY) filteredEntries
                         endDate current [] in
  match dailyData with
  | [] => NoData
  | _ => Rows (rev dailyData)
  end.

End WithZone.

(** A run of the application: the user presses category buttons one after
    the other; each press is one [addEntry] with its own clock readings
    and its own answers from the outside world. *)
Record AddOp : Type := mkAddOp {
  op_dateNow : Z;
  op_newDate : Z;
  op_env : Env;
  op_category : string
}.

Definition runAdds (ops : list AddOp) (st : State) : State :=
  fold_left
    (fun st op => fst (addEntry (op_dateNow op) (op_newDate op) (op_env op) (op_category op) st))
    ops st.

Definition loadDataLocal (st : State) : State :=
  match localData st with
  | Some saved => setCurrentData saved st
  | None => setCurrentData {| entries := []; sha := None |} st
  end.

Definition loadData (GET : GetResult) (env : Env) (st : State) : State * Completion :=
  if isLocal st then (loadDataLocal st, Returned)
  else if negb (isConfigured st) then
    (showStatus "Please configure GitHub settings first" "error" st, Returned)
  else
    let st := showStatus "Loading data..." "info" st in
    match GET with
    | GetOk contentEntries dataSha =>
        let st := setCurrentData
                    {| entries := match contentEntries with Some es => es | None => [] end;
                       sha := Some dataSha |} st in
        (showStatus "Data loaded successfully" "success" st, Returned)
    | GetThrows msg =>
        if includes "404" msg then saveData env [] st
        else (showStatus ("Error loading data: " ++ msg) "error" st, Returned)
    end.

(** [localStorage.removeItem] does not throw. *)
Definition clearLocalData (confirmed : bool) (st : State) : State :=
  if negb confirmed then st
  else
    let st := {| config := config st;
                 currentData := {| entries := []; sha := sha (currentData st) |};
                 status := status st;
                 localData := None |} in
    showStatus "All data cleared" "success" st.

(** The draws of [Math.random()] for one sample entry, already scaled and
    floored: the index into [categories], the hour and the minute. *)
Record Draw : Type := mkDraw {
  draw_category : nat;
  draw_hour : Z;
  draw_minute : Z
}.

Definition categories : list string := ["beer"; "wine"; "liquor"; "smoking"].

(** The inner loop of [generateDummyData]: one pass per draw, [j] counts
    the passes and [date] is the object the passes keep setting. *)
Fixpoint generateDummyData_day (tz : Z) (draws : list Draw) (j : nat) (date : Z)
         (es : list Entry) : list Entry :=
  match draws with
  | [] => es
  | d :: rest =>
      let cat := nth (draw_category d) categories "undefined" in
      let date := setHours tz date (draw_hour d) (draw_minute d) 0 0 in
      generateDummyData_day tz rest (S j) date
        (es ++ [ {| id := toString date ++ "-" ++ toString (Z.of_nat j);
                    timestamp := date;
                    category := cat |} ])%list
  end.

(** The outer loop, [i] running from [count - 1] down to 0; [random i] is
    the list of draws of day [i], its length the [numEntries] drawn first. *)
Fixpoint generateDummyData_days (tz today : Z) (random : nat -> list Draw) (count : nat)
         (es : list Entry) : list Entry :=
  match count with
  | O => es
  | S i =>
      let date := addDays today (- Z.of_nat i) in
      generateDummyData_days tz today random i
        (generateDummyData_day tz (random i) 0 date es)
  end.

Definition generateDummyData (tz today : Z) (random : nat -> list Draw) (env : Env)
           (st : State) : State * Completion :=
  let es := generateDummyData_days tz today random 30 [] in
  let st := setCurrentData {| entries := es; sha := sha (currentData st) |} st in
  match saveDataLocal env st with
  | (st, Returned) => (showStatus "Sample data generated!" "success" st, Returned)
  | (st, Rejected msg) => (st, Rejected msg)
  end.

(** The numbers [renderOverview] puts on its cards; the averages, which it
    formats with [toFixed], are left out. *)
Record Overview : Type := mkOverview {
  ov_stats : nat * nat * nat * nat;
  ov_weekdayStats : nat * nat * nat * nat;
  ov_weekendStats : nat * nat * nat * nat;
  ov_total : nat;
  ov_weekdayTotal : nat;
  ov_weekendTotal : nat;
  ov_days : Z;
  ov_weekdayCount : nat;
  ov_weekendCount : nat
}.

Fixpoint renderOverview_loop (tz : Z) (fuel : nat) (endDate current : Z)
         (weekdayCount weekendCount : nat) : nat * nat :=
  match fuel with
  | O => (weekdayCount, weekendCount)
  | S fuel' =>
      if current <=? endDate then
        let day := getDay tz current in
        if (day =? 0) || (day =? 6)
        then renderOverview_loop tz fuel' endDate (addDays current 1)
                                 weekdayCount (S weekendCount)
        else renderOverview_loop tz fuel' endDate (addDays current 1)
                                 (S weekdayCount) weekendCount
      else (weekdayCount, weekendCount)
  end.

Definition sum4 (s : nat * nat * nat * nat) : nat :=
  let '(b, w, l, k) := s in (b + w + l + k)%nat.

Definition renderOverview (tz : Z) (es : list Entry) (period now : Z) : Overview :=
  let '(startDate, endDate) := dateRange tz es period now in
  let filteredEntries := filterRange es startDate endDate in
  let weekdayEntries :=
    filter (fun entry => let day := getDay tz (timestamp entry) in
                         negb (day =? 0) && negb (day =? 6)) filteredEntries in
  let weekendEntries :=
    filter (fun entry => let day := getDay tz (timestamp entry) in
                         (day =? 0) || (day =? 6)) filteredEntries in
  let stats := countStats filteredEntries in
  let weekdayStats := countStats weekdayEntries in
  let weekendStats := countStats weekendEntries in
  let days := ceilDiv (endDate - startDate) MS_PER_DAY + 1 in
  let '(weekdayCount, weekendCount) :=
    renderOverview_loop tz (loopFuel startDate endDate MS_PER_DAY) endDate startDate 0 0 in
  {| ov_stats := stats; ov_weekdayStats := weekdayStats; ov_weekendStats := weekendStats;
     ov_total := sum4 stats; ov_weekdayTotal := sum4 weekdayStats;
     ov_weekendTotal := sum4 weekendStats;
     ov_days := days; ov_weekdayCount := weekdayCount; ov_weekendCount := weekendCount |}.

Definition setConfig (c : Config) (st : State) : State :=
  {| config := c; currentData := currentData st; status := status st;
     localData := localData st |}.

(** [saveConfig()], up to its call of [loadData()].  The three fields are
    the values of the inputs after [trim()]; [storedConfig] is the value under
    [CONFIG_KEY] ([None] when the key is absent) and [setItemResult] what
    [localStorage.setItem] does.  The result is the new state, the new value
    under [CONFIG_KEY], whether [loadData()] is called next, and how the
    function ends. *)
Definition saveConfig (tokenField ownerField repoField : string)
           (setItemResult : SetItemResult) (storedConfig : option Config) (st : State)
  : State * option Config * bool * Completion :=
  let c := {| token := tokenField; owner := ownerField; repo := repoField;
              mode := mode (config st) |} in
  let st := setConfig c st in
  if negb (truthy tokenField) || negb (truthy ownerField) || negb (truthy repoField) then
    (showStatus "Please fill in all configuration fields" "error" st, storedConfig, false,
     Returned)
  else
    match setItemResult with
    | Stored => (showStatus "Configuration saved!" "success" st, Some c, true, Returned)
    | SetItemThrows msg => (st, storedConfig, false, Rejected msg)
    end.

(** [loadConfig()]: a stored configuration replaces [config], its mode
    defaulting to local; a field the stored JSON lacks is the empty string
    here, which is as falsy as [undefined]. *)
Definition loadConfig (storedConfig : option Config) (st : State) : State :=
  match storedConfig with
  | Some saved =>
      setConfig {| token := token saved; owner := owner saved; repo := repo saved;
                   mode := if truthy (mode saved) then mode saved else "local" |} st
  | None =>
      setConfig {| token := token (config st); owner := owner (config st);
                   repo := repo (config st); mode := "local" |} st
  end.

(** [setMode(mode)], up to its call of [loadData()]: the new state and the
    new value under [CONFIG_KEY]. *)
Definition setMode (newMode : string) (setItemResult : SetItemResult)
           (storedConfig : option Config) (st : State)
  : State * option Config * Completion :=
  let c := {| token := token (config st); owner := owner (config st);
              repo := repo (config st); mode := newMode |} in
  let st := setConfig c st in
  match setItemResult with
  | Stored => (st, Some c, Returned)
  | SetItemThrows msg => (st, storedConfig, Rejected msg)
  end.

End Part000.

(** The same run for [src/app.js]. *)
Definition AppJs_runAdds (ops : list (Z * Z * (PutBody -> PutResult) * string))
           (st : AppJs.State) : AppJs.State :=
  fold_left
    (fun st op => let '(dateNow, newDate, put, cat) := op in
                  fst (AppJs.addEntry dateNow newDate put cat st))
    ops st.

(** The periods offered by the [time-period] selector. *)
Definition enumeratedPeriod (period : Z) : Prop :=
  period = 7 \/ period = 30 \/ period = 90 \/ period = 365.

(** ** Vocabulary of the statements *)

Definition byTimestamp (a b : Entry) : Prop := timestamp a <= timestamp b.

(** The successive values of [current] for which the body of
    [while (current <= endDate) { ...; current.setDate(current.getDate() + stepDays) }]
    runs, for at most [fuel] passes. *)
Fixpoint loopDates (fuel : nat) (current endDate stepDays : Z) : list Z :=
  match fuel with
  | O => []
  | S fuel' =>
      if current <=? endDate
      then current :: loopDates fuel' (addDays current stepDays) endDate stepDays
      else []
  end.

(** [n] dates, [stepDays] days apart, from [first] on. *)
Definition datesFrom (first stepDays : Z) (n : nat) : list Z :=
  map (fun k => addDays first (stepDays * Z.of_nat k)) (seq 0 n).

(** Number of events of category [c] whose timestamp lies in [[lo, hi]]. *)
Definition countIn (c : string) (es : list Entry) (lo hi : Z) : nat :=
  List.length (filter (fun e => (category e =? c)%string && (lo <=? timestamp e) && (timestamp e <=? hi)) es).

(** "Mon D": the short date of the local day of [t]. *)
Definition shortDate (tz t : Z) : string :=
  nth (Z.to_nat (getMonth tz t)) months "undefined" ++ " " ++ toString (getDate tz t).

(** The entries the day loop and the week loop select at [current]. *)
Definition dayEntriesOf (es : list Entry) (current : Z) : list Entry :=
  filter (fun e => isoDate_eqb (isoDate (timestamp e)) (isoDate current)) es.

Definition weekEntriesOf (es : list Entry) (current : Z) : list Entry :=
  filter (fun e => (current <=? timestamp e) && (timestamp e <=? addDays current 6)) es.

(** The pushes of a whole run of a bucket loop. *)
Definition pushAll (label : Z -> string) (bucket : Z -> list Entry)
           (dates : list Z) (data : ChartData) : ChartData :=
  fold_left (fun d c => pushBucket d (label c) (bucket c)) dates data.

(** The value of [current] when the week loop is entered. *)
Definition weekLoopStart (tz windowStart : Z) : Z :=
  addDays (setHours tz windowStart 0 0 0 0) (- getDay tz (setHours tz windowStart 0 0 0 0)).

(** The day number of a calendar date: the inverse of [civil_from_days]. *)
Definition days_from_civil (c : Z * Z * Z) : Z :=
  let '(y0, m, d) := c in
  let y := if m <=? 2 then y0 - 1 else y0 in
  let era := y / 400 in
  let yoe := y - era * 400 in
  let mp := if m <=? 2 then m + 9 else m - 3 in
  let doy := (153 * mp + 2) / 5 + d - 1 in
  let doe := yoe * 365 + yoe / 4 - yoe / 100 + doy in
  era * 146097 + doe - 719468.

(** Number of events of category [c] whose UTC day number is [day]. *)
Definition countOnUtcDay (c : string) (es : list Entry) (day : Z) : nat :=
  List.length (filter (fun e => (category e =? c)%string && (timestamp e / MS_PER_DAY =? day)) es).

(** The list of ids of a store. *)
Definition ids (es : list Entry) : list string := map id es.

(** The element [renderTableView] builds for the day that starts at
    [current], and the elements it keeps for a list of days. *)
Definition rowOf (es : list Entry) (current : Z) : Part000.DayRow :=
  let dayEntries := dayEntriesOf es current in
  let b := countCategory "beer" dayEntries in
  let w := countCategory "wine" dayEntries in
  let l := countCategory "liquor" dayEntries in
  let s := countCategory "smoking" dayEntries in
  Part000.mkDayRow current b w l s (b + w + l + s)%nat.

Definition rowsOf (es : list Entry) (dates : list Z) : list Part000.DayRow :=
  filter (fun r => (0 <? Part000.row_total r)%nat) (map (rowOf es) dates).

(** The rows of a table body, top row first. *)
Definition tableRows (b : Part000.TableBody) : list Part000.DayRow :=
  match b with
  | Part000.NoData => []
  | Part000.Rows rows => rows
  end.

(** [a] is listed before [b] only if its day is later. *)
Definition laterDay (a b : Part000.DayRow) : Prop := Part000.row_date b < Part000.row_date a.

(** The status element shows an error. *)
Definition reportsError (s : option Status) : Prop :=
  exists msg, s = Some (mkStatus msg "error").

(** The body [saveData] sends when the stored revision is [s]. *)
Definition putBody (newEntries : list Entry) (s : option string) : PutBody :=
  {| body_entries := newEntries; body_sha := truthySha s |}.

(** [app.js] seen as [part_000] in GitHub mode: same configuration and
    data, nothing in local storage. *)
Definition ofAppJs (st : AppJs.State) : Part000.State :=
  {| Part000.config :=
       {| Part000.token := AppJs.token (AppJs.config st);
          Part000.owner := AppJs.owner (AppJs.config st);
          Part000.repo := AppJs.repo (AppJs.config st);
          Part000.mode := "github" |};
     Part000.currentData := AppJs.currentData st;
     Part000.status := AppJs.status st;
     Part000.localData := None |}.

Definition envOfAppJs (put : PutBody -> PutResult) : Part000.Env :=
  {| Part000.PUT := put; Part000.setItem := Stored |}.

Definition ofAppJsResult (r : AppJs.State * Completion) : Part000.State * Completion :=
  (ofAppJs (fst r), snd r).

Definition ofAppJsOp (op : Z * Z * (PutBody -> PutResult) * string) : Part000.AddOp :=
  let '(dateNow, newDate, put, cat) := op in
  {| Part000.op_dateNow := dateNow; Part000.op_newDate := newDate;
     Part000.op_env := envOfAppJs put; Part000.op_category := cat |}.

(** States and answers used in the examples: an empty store in local mode,
    an empty store in GitHub mode, a world in which every save succeeds and
    one in which every save fails. *)
Definition localEmpty : Part000.State :=
  {| Part000.config := {| Part000.token := ""; Part000.owner := ""; Part000.repo := "";
                          Part000.mode := "local" |};
     Part000.currentData := {| entries := []; sha := None |};
     Part000.status := None;
     Part000.localData := None |}.

Definition githubEmpty : Part000.State :=
  {| Part000.config := {| Part000.token := "t"; Part000.owner := "o"; Part000.repo := "r";
                          Part000.mode := "github" |};
     Part000.currentData := {| entries := []; sha := Some "abc" |};
     Part000.status := None;
     Part000.localData := None |}.

Definition savesSucceed : Part000.Env :=
  {| Part000.PUT := fun _ => PutOk "def"; Part000.setItem := Stored |}.

Definition savesFail : Part000.Env :=
  {| Part000.PUT := fun _ => PutError "GitHub API error: 409 - conflict";
     Part000.setItem := SetItemThrows "QuotaExceededError" |}.

(** ** Vocabulary of the further properties *)

(** The event falls on a Saturday, after the local midnight that opens it. *)
Definition lateSaturday (tz : Z) (e : Entry) : bool :=
  (getDay tz (timestamp e) =? 6) && negb (localTimeOfDay tz (timestamp e) =? 0).

(** The item [renderEntries] builds for an entry. *)
Definition itemOf (tz : Z) (entry : Entry) : EntryItem :=
  {| item_category := category entry;
     item_formatted := formatDateTime tz (timestamp entry);
     item_deleteId := id entry |}.

(** [a] may stand above [b] in the log: it is not older. *)
Definition notOlder (a b : Entry) : Prop := timestamp b <= timestamp a.

(** The save of [newEntries] from state [st] goes through: in local mode
    [setItem] stores, in GitHub mode the PUT of the body answers with a new
    revision. *)
Definition saveSucceeds (env : Part000.Env) (newEntries : list Entry) (st : Part000.State)
  : Prop :=
  if Part000.isLocal st then Part000.setItem env = Stored
  else exists newSha,
      Part000.PUT env (putBody newEntries (sha (Part000.currentData st))) = PutOk newSha.

(** The entry [addEntry] builds. *)
Definition newEntry (dateNow newDate : Z) (cat : string) : Entry :=
  {| id := toString dateNow; timestamp := newDate; category := cat |}.

(** The entry one press of a category button builds. *)
Definition entryOfOp (op : Part000.AddOp) : Entry :=
  newEntry (Part000.op_dateNow op) (Part000.op_newDate op) (Part000.op_category op).


(** Componentwise sum of two [stats] objects. *)
Definition add4 (a b : nat * nat * nat * nat) : nat * nat * nat * nat :=
  let '(b1, w1, l1, k1) := a in
  let '(b2, w2, l2, k2) := b in
  ((b1 + b2)%nat, (w1 + w2)%nat, (l1 + l2)%nat, (k1 + k2)%nat).

(** [getDay] says Saturday or Sunday. *)
Definition isWeekend (tz t : Z) : bool := (getDay tz t =? 0) || (getDay tz t =? 6).

(** The id [generateDummyData] gives the [j]-th entry of a day. *)
Definition dummyId (time : Z) (j : nat) : string :=
  toString time ++ "-" ++ toString (Z.of_nat j).

(** The string holds no minus sign. *)
Fixpoint noDash (s : string) : bool :=
  match s with
  | EmptyString => true
  | String c rest => negb (Ascii.eqb c "-"%char) && noDash rest
  end.

(** The entries one day of [generateDummyData] adds, and those of the days
    [count - 1] down to 0. *)
Fixpoint dummyDay (tz : Z) (draws : list Part000.Draw) (j : nat) (date : Z) : list Entry :=
  match draws with
  | [] => []
  | d :: rest =>
      let date := setHours tz date (Part000.draw_hour d) (Part000.draw_minute d) 0 0 in
      {| id := dummyId date j; timestamp := date;
         category := nth (Part000.draw_category d) Part000.categories "undefined" |}
      :: dummyDay tz rest (S j) date
  end.

Fixpoint dummyDays (tz today : Z) (random : nat -> list Part000.Draw) (count : nat)
  : list Entry :=
  match count with
  | O => []
  | S i => (dummyDay tz (random i) 0 (addDays today (- Z.of_nat i))
            ++ dummyDays tz today random i)%list
  end.

(** What [Math.random()] can give [generateDummyData]: up to 5 entries a
    day, a category index below 4, an hour from 10 to 23, a minute from 0 to
    59. *)
Definition validDraw (d : Part000.Draw) : Prop :=
  (Part000.draw_category d < 4)%nat
  /\ 10 <= Part000.draw_hour d <= 23
  /\ 0 <= Part000.draw_minute d <= 59.

Definition validRandom (random : nat -> list Part000.Draw) : Prop :=
  forall i, (List.length (random i) <= 5)%nat /\ Forall validDraw (random i).

(** * Properties *)

(** ** The date model *)

Section DateFacts.

Variable tz : Z.

Lemma localTimeOfDay_bound (t : Z) : 0 <= localTimeOfDay tz t < MS_PER_DAY.
Proof. unfold localTimeOfDay, MS_PER_DAY. apply Z.mod_pos_bound. lia. Qed.

(** [setHours(0, 0, 0, 0)] goes back to the local midnight that opens the
    day of [t]. *)
Lemma setHours_midnight (t : Z) :
  setHours tz t 0 0 0 0 = t - localTimeOfDay tz t.
Proof. unfold setHours. lia. Qed.

Lemma setHours_midnight_le (t : Z) : setHours tz t 0 0 0 0 <= t.
Proof. rewrite setHours_midnight. pose proof (localTimeOfDay_bound t). lia. Qed.

Lemma setHours_midnight_gt (t : Z) : t < setHours tz t 0 0 0 0 + MS_PER_DAY.
Proof. rewrite setHours_midnight. pose proof (localTimeOfDay_bound t). lia. Qed.

Lemma setHours_midnight_timeOfDay (t : Z) :
  localTimeOfDay tz (setHours tz t 0 0 0 0) = 0.
Proof.
  rewrite setHours_midnight. unfold localTimeOfDay, MS_PER_DAY.
  replace (t - (t + tz) mod 86400000 + tz) with ((t + tz) - (t + tz) mod 86400000) by lia.
  rewrite Zminus_mod_idemp_r, Z.sub_diag. reflexivity.
Qed.


Lemma setHours_midnight_localDay (t : Z) :
  setHours tz t 0 0 0 0 = localDay tz t * MS_PER_DAY - tz.
Proof.
  rewrite setHours_midnight. unfold localTimeOfDay, localDay, MS_PER_DAY.
  pose proof (Z.div_mod (t + tz) 86400000). lia.
Qed.

Lemma localDay_mono (a b : Z) : a <= b -> localDay tz a <= localDay tz b.
Proof. intros H. unfold localDay, MS_PER_DAY. apply Z.div_le_mono; lia. Qed.

Lemma setHours_midnight_mono (a b : Z) :
  a <= b -> setHours tz a 0 0 0 0 <= setHours tz b 0 0 0 0.
Proof.
  intros H. rewrite !setHours_midnight_localDay.
  pose proof (localDay_mono a b H). unfold MS_PER_DAY. lia.
Qed.

(** [setHours(23, 59, 59, 999)] is the last millisecond of the day of [t]. *)
Lemma setHours_endOfDay (t : Z) :
  setHours tz t 23 59 59 999 = setHours tz t 0 0 0 0 + MS_PER_DAY - 1.
Proof. unfold setHours, MS_PER_DAY. lia. Qed.

Lemma setHours_endOfDay_ge (t : Z) : t <= setHours tz t 23 59 59 999.
Proof. rewrite setHours_endOfDay. pose proof (setHours_midnight_gt t). lia. Qed.

(** An instant after the end of the day of [now] lies on a later day. *)
Lemma midnight_after_endOfDay (t now : Z) :
  setHours tz now 23 59 59 999 < t ->
  setHours tz now 23 59 59 999 < setHours tz t 0 0 0 0.
Proof.
  intros H. rewrite setHours_endOfDay in *.
  rewrite (setHours_midnight_localDay t), (setHours_midnight_localDay now) in *.
  assert (Hd : localDay tz now < localDay tz t).
  { unfold localDay, MS_PER_DAY in *.
    pose proof (Z.div_mod (t + tz) 86400000).
    pose proof (Z.mod_pos_bound (t + tz) 86400000). lia. }
  unfold MS_PER_DAY. lia.
Qed.

Lemma addDays_localDay (t k : Z) : localDay tz (addDays t k) = localDay tz t + k.
Proof.
  unfold localDay, addDays.
  replace (t + k * MS_PER_DAY + tz) with (t + tz + k * MS_PER_DAY) by lia.
  apply Z.div_add. unfold MS_PER_DAY. lia.
Qed.

Lemma addDays_timeOfDay (t k : Z) :
  localTimeOfDay tz (addDays t k) = localTimeOfDay tz t.
Proof.
  unfold localTimeOfDay, addDays.
  replace (t + k * MS_PER_DAY + tz) with (t + tz + k * MS_PER_DAY) by lia.
  apply Z.mod_add. unfold MS_PER_DAY. lia.
Qed.

Lemma getDay_bound (t : Z) : 0 <= getDay tz t < 7.
Proof. unfold getDay. apply Z.mod_pos_bound. lia. Qed.

End DateFacts.

Lemma addDays_addDays (t a b : Z) : addDays (addDays t a) b = addDays t (a + b).
Proof. unfold addDays. lia. Qed.

(** ** Sorting by time value *)

Lemma insertByTimestamp_In (e x : Entry) (l : list Entry) :
  In x (insertByTimestamp e l) <-> x = e \/ In x l.
Proof.
  induction l as [|y l IH]; simpl.
  - intuition congruence.
  - destruct (timestamp e <=? timestamp y); simpl.
    + intuition congruence.
    + rewrite IH. intuition congruence.
Qed.

Lemma sortByTimestamp_In (x : Entry) (l : list Entry) :
  In x (sortByTimestamp l) <-> In x l.
Proof.
  induction l as [|y l IH]; simpl; [tauto|].
  rewrite insertByTimestamp_In, IH. intuition congruence.
Qed.

Lemma insertByTimestamp_sorted (e : Entry) (l : list Entry) :
  StronglySorted byTimestamp l -> StronglySorted byTimestamp (insertByTimestamp e l).
Proof.
  induction l as [|y l IH]; intros Hs; simpl.
  - repeat constructor.
  - destruct (Z.leb_spec (timestamp e) (timestamp y)) as [Hle|Hgt].
    + constructor; [exact Hs|].
      inversion Hs as [|? ? _ Hall]; subst.
      constructor; [exact Hle|].
      rewrite Forall_forall in *. intros z Hz. specialize (Hall z Hz).
      unfold byTimestamp in *. lia.
    + inversion Hs as [|? ? Hs' Hall]; subst.
      constructor; [apply IH; exact Hs'|].
      rewrite Forall_forall in *. intros z Hz.
      apply insertByTimestamp_In in Hz. destruct Hz as [->|Hz].
      * unfold byTimestamp. lia.
      * apply Hall; exact Hz.
Qed.

Lemma sortByTimestamp_sorted (l : list Entry) :
  StronglySorted byTimestamp (sortByTimestamp l).
Proof.
  induction l as [|y l IH]; simpl; [constructor|].
  apply insertByTimestamp_sorted; exact IH.
Qed.

(** [sortedEntries[0]] is an entry of the list with the least time value. *)
Lemma sortByTimestamp_head (l : list Entry) (first : Entry) (rest : list Entry) :
  sortByTimestamp l = first :: rest ->
  In first l /\ forall e, In e l -> timestamp first <= timestamp e.
Proof.
  intros Heq. split.
  - apply sortByTimestamp_In. rewrite Heq. left; reflexivity.
  - intros e He. apply sortByTimestamp_In in He. rewrite Heq in He.
    pose proof (sortByTimestamp_sorted l) as Hs. rewrite Heq in Hs.
    inversion Hs as [|? ? _ Hall]; subst.
    destruct He as [->|He]; [lia|].
    rewrite Forall_forall in Hall. apply Hall; exact He.
Qed.

Lemma sortByTimestamp_nil (l : list Entry) : sortByTimestamp l = [] -> l = [].
Proof.
  destruct l as [|e l]; [reflexivity|]. intros H.
  assert (Hin : In e (sortByTimestamp (e :: l))) by (apply sortByTimestamp_In; left; reflexivity).
  rewrite H in Hin. destruct Hin.
Qed.

(** ** Summary statistics *)

(** [part_000] adds each of the four counts once. *)
Lemma Part000_renderSummaryStats_total (es : list Entry) :
  let s := Part000.renderSummaryStats es in
  total s = (stats_beer s + stats_wine s + stats_liquor s + stats_smoking s)%nat.
Proof. reflexivity. Qed.

(** [app.js] adds [stats.wine] a second time. *)
Lemma AppJs_renderSummaryStats_total (es : list Entry) :
  let s := AppJs.renderSummaryStats es in
  total s = (stats_beer s + stats_wine s + stats_liquor s + stats_smoking s + stats_wine s)%nat.
Proof. simpl. lia. Qed.

(** C1, on [src/app.js]: for the single event [wine], the four per-category
    counts add up to 1, and the grand total shown by [renderSummaryStats] is
    2: the sum of [app.js] has [stats.wine] twice. *)
Theorem C1_app_js_total_counts_wine_twice :
  let s := AppJs.renderSummaryStats [mkEntry "1704535200000" 1704535200000 "wine"] in
  (stats_beer s + stats_wine s + stats_liquor s + stats_smoking s)%nat = 1%nat
  /\ total s = 2%nat.
Proof. split; reflexivity. Qed.

(** ** The reporting window *)

Lemma Part000_dateRange_nonempty (tz : Z) (es : list Entry) (period now : Z) :
  es <> [] ->
  exists m, In m es
    /\ (forall e, In e es -> timestamp m <= timestamp e)
    /\ Part000.dateRange tz es period now =
       (setHours tz (timestamp m) 0 0 0 0,
        if addDays (setHours tz (timestamp m) 0 0 0 0) (period - 1) <? setHours tz now 23 59 59 999
        then addDays (setHours tz (timestamp m) 0 0 0 0) (period - 1)
        else setHours tz now 23 59 59 999).
Proof.
  intros Hne. unfold Part000.dateRange.
  destruct (sortByTimestamp es) as [|first rest] eqn:Hs.
  - apply sortByTimestamp_nil in Hs. contradiction.
  - destruct (sortByTimestamp_head es first rest Hs) as [Hin Hmin].
    exists first. repeat split; assumption.
Qed.

Lemma Part000_dateRange_empty (tz period now : Z) :
  Part000.dateRange tz [] period now = (addDays now (- period), setHours tz now 23 59 59 999).
Proof. reflexivity. Qed.

Lemma Part000_updateChart_startDate (tz : Z) (es : list Entry) (period now : Z) :
  startDate (Part000.updateChart tz es period now) = fst (Part000.dateRange tz es period now).
Proof.
  unfold Part000.updateChart. destruct (Part000.dateRange tz es period now). reflexivity.
Qed.

Lemma Part000_updateChart_endDate (tz : Z) (es : list Entry) (period now : Z) :
  endDate (Part000.updateChart tz es period now) = snd (Part000.dateRange tz es period now).
Proof.
  unfold Part000.updateChart. destruct (Part000.dateRange tz es period now). reflexivity.
Qed.

(** C2, as amended.  In [part_000], for every non-empty event list (and
    every period and every now) the window starts at the day-floor of the
    earliest event: the local midnight at or before the least timestamp of
    the list, less than a day before it.  In [app.js] the window starts
    [period] days before now, whatever the events are. *)
Theorem C2_window_start (tz : Z) (es : list Entry) (period now : Z) :
  es <> [] ->
  (exists m, In m es
     /\ (forall e, In e es -> timestamp m <= timestamp e)
     /\ let start := startDate (Part000.updateChart tz es period now) in
        start = setHours tz (timestamp m) 0 0 0 0
        /\ localTimeOfDay tz start = 0
        /\ start <= timestamp m < start + MS_PER_DAY)
  /\ startDate (AppJs.updateChart tz es period now) = addDays now (- period).
Proof.
  intros Hne. split; [|reflexivity].
  destruct (Part000_dateRange_nonempty tz es period now Hne) as (m & Hin & Hmin & Hr).
  exists m. split; [exact Hin|]. split; [exact Hmin|]. cbv zeta.
  rewrite Part000_updateChart_startDate, Hr. cbn [fst].
  split; [reflexivity|]. split; [apply setHours_midnight_timeOfDay|].
  split; [apply setHours_midnight_le|apply setHours_midnight_gt].
Qed.

Lemma C2_window_start_witness :
  exists m, In m [mkEntry "b" 1704535200000 "wine"; mkEntry "a" 1704243600000 "beer"]
    /\ startDate (Part000.updateChart 0
                    [mkEntry "b" 1704535200000 "wine"; mkEntry "a" 1704243600000 "beer"]
                    7 1704888000000)
       = setHours 0 (timestamp m) 0 0 0 0.
Proof.
  destruct (C2_window_start 0
              [mkEntry "b" 1704535200000 "wine"; mkEntry "a" 1704243600000 "beer"]
              7 1704888000000) as [(m & Hin & _ & Hs & _) _].
  - discriminate.
  - exists m. split; assumption.
Defined.

(** C2 as stated fails on [src/app.js]: with one event on 2024-01-06 and
    now on 2024-01-10, the 7-day window of [app.js] starts on 2024-01-03,
    not at the midnight of the event's day. *)
Lemma C2_counterexample :
  let es := [mkEntry "1704535200000" 1704535200000 "wine"] in
  es <> [] /\ enumeratedPeriod 7
  /\ startDate (AppJs.updateChart 0 es 7 1704888000000) <> setHours 0 1704535200000 0 0 0 0.
Proof.
  simpl. split; [discriminate|]. split; [left; reflexivity|].
  vm_compute. discriminate.
Qed.

(** In [app.js] the window is never inverted. *)
Lemma AppJs_window_ordered (tz : Z) (es : list Entry) (period now : Z) :
  0 <= period ->
  startDate (AppJs.updateChart tz es period now) <= endDate (AppJs.updateChart tz es period now).
Proof. intros Hp. simpl. unfold addDays, MS_PER_DAY. lia. Qed.

Lemma Part000_window_ordered_iff (tz : Z) (es : list Entry) (period now : Z) :
  1 <= period ->
  (startDate (Part000.updateChart tz es period now)
     <= endDate (Part000.updateChart tz es period now)
   <-> es = [] \/ exists e, In e es /\ timestamp e <= setHours tz now 23 59 59 999).
Proof.
  intros Hp.
  rewrite Part000_updateChart_startDate, Part000_updateChart_endDate.
  destruct es as [|e0 es'].
  - rewrite Part000_dateRange_empty. cbn [fst snd].
    split; [intros _; left; reflexivity|intros _].
    pose proof (setHours_endOfDay_ge tz now). unfold addDays, MS_PER_DAY. lia.
  - destruct (Part000_dateRange_nonempty tz (e0 :: es') period now) as (m & Hin & Hmin & Hd);
      [discriminate|].
    rewrite Hd. cbn [fst snd].
    set (first := setHours tz (timestamp m) 0 0 0 0).
    set (eod := setHours tz now 23 59 59 999).
    assert (Hpe : first <= addDays first (period - 1))
      by (unfold addDays, MS_PER_DAY; lia).
    split.
    + intros Hle. right. exists m. split; [exact Hin|].
      destruct (Z.le_gt_cases (timestamp m) eod) as [H|H]; [exact H|].
      apply midnight_after_endOfDay in H. fold first eod in H.
      destruct (Z.ltb_spec (addDays first (period - 1)) eod); lia.
    + intros [Hnil|(e & He & Hle)]; [discriminate|].
      pose proof (Hmin e He). pose proof (setHours_midnight_le tz (timestamp m)).
      fold first in H0.
      destruct (Z.ltb_spec (addDays first (period - 1)) eod); lia.
Qed.

(** C3, as amended.  For every enumerated period and every now: the window
    of [app.js] always has [start <= end]; the window of [part_000] has
    [start <= end] exactly when the event list is empty or holds an event
    that is not later than the end of the day of now. *)
Theorem C3_window_ordered (tz : Z) (es : list Entry) (period now : Z) :
  enumeratedPeriod period ->
  startDate (AppJs.updateChart tz es period now) <= endDate (AppJs.updateChart tz es period now)
  /\ (startDate (Part000.updateChart tz es period now)
        <= endDate (Part000.updateChart tz es period now)
      <-> es = [] \/ exists e, In e es /\ timestamp e <= setHours tz now 23 59 59 999).
Proof.
  intros Hp. assert (1 <= period) by (unfold enumeratedPeriod in Hp; lia).
  split.
  - apply AppJs_window_ordered. lia.
  - apply Part000_window_ordered_iff. assumption.
Qed.

Lemma C3_window_ordered_witness :
  startDate (Part000.updateChart 0 [mkEntry "a" 1704243600000 "beer"] 30 1704888000000)
  <= endDate (Part000.updateChart 0 [mkEntry "a" 1704243600000 "beer"] 30 1704888000000).
Proof.
  apply (C3_window_ordered 0 [mkEntry "a" 1704243600000 "beer"] 30 1704888000000).
  - right; left; reflexivity.
  - right. exists (mkEntry "a" 1704243600000 "beer"). split; [left; reflexivity|].
    vm_compute. discriminate.
Defined.

(** C3 as stated fails on [part_000]: the stored list holds one event dated
    2024-01-06 and now is 2024-01-03 (a clock set back, or a file written
    elsewhere); the window starts on 2024-01-06 and ends on 2024-01-03. *)
Lemma C3_counterexample :
  let w := Part000.updateChart 0 [mkEntry "1704535200000" 1704535200000 "wine"] 7 1704250800000 in
  enumeratedPeriod 7 /\ ~ (startDate w <= endDate w).
Proof.
  split; [left; reflexivity|]. vm_compute. intros H. apply H. reflexivity.
Qed.

(** ** The bucket loops *)

Lemma loopDates_datesFrom (endDate stepDays : Z) (fuel : nat) (current : Z) :
  (forall k, (k < fuel)%nat -> addDays current (stepDays * Z.of_nat k) <= endDate) ->
  loopDates fuel current endDate stepDays = datesFrom current stepDays fuel.
Proof.
  revert current. induction fuel as [|fuel IH]; intros current Hk; [reflexivity|].
  simpl. unfold datesFrom. simpl.
  assert (H0 : current <= endDate).
  { specialize (Hk O ltac:(lia)). unfold addDays in Hk. lia. }
  destruct (Z.leb_spec current endDate); [|lia].
  f_equal; [unfold addDays; lia|].
  rewrite IH.
  - unfold datesFrom. rewrite <- seq_shift, map_map.
    apply map_ext. intros k. unfold addDays. lia.
  - intros k Hlt. specialize (Hk (S k) ltac:(lia)). unfold addDays in *. lia.
Qed.

(** The fuel handed to the loops is the number of passes: every date
    visited is at most [endDate], and the next one is beyond it. *)
Lemma loopFuel_passes (current endDate stepDays : Z) (k : nat) :
  0 < stepDays ->
  (k < loopFuel current endDate (stepDays * MS_PER_DAY))%nat ->
  addDays current (stepDays * Z.of_nat k) <= endDate.
Proof.
  intros Hs Hk. unfold loopFuel, addDays, MS_PER_DAY in *.
  set (w := stepDays * 86400000) in *.
  assert (Hw : 0 < w) by (unfold w; lia).
  pose proof (Z.div_mod (endDate - current) w ltac:(lia)).
  pose proof (Z.mod_pos_bound (endDate - current) w Hw).
  assert (Z.of_nat k <= (endDate - current) / w) by lia.
  assert (w * Z.of_nat k <= w * ((endDate - current) / w)) by (apply Z.mul_le_mono_nonneg_l; lia).
  unfold w in *. lia.
Qed.

Lemma loopFuel_exit (current endDate stepDays : Z) :
  0 < stepDays ->
  endDate < addDays current (stepDays * Z.of_nat (loopFuel current endDate (stepDays * MS_PER_DAY))).
Proof.
  intros Hs. unfold loopFuel, addDays, MS_PER_DAY in *.
  set (w := stepDays * 86400000) in *.
  assert (Hw : 0 < w) by (unfold w; lia).
  pose proof (Z.div_mod (endDate - current) w ltac:(lia)).
  pose proof (Z.mod_pos_bound (endDate - current) w Hw).
  destruct (Z.le_gt_cases 0 ((endDate - current) / w + 1)) as [Hq|Hq].
  - rewrite Z2Nat.id by exact Hq.
    replace (current + stepDays * ((endDate - current) / w + 1) * 86400000)
      with (current + w * ((endDate - current) / w) + w) by (unfold w; lia).
    lia.
  - replace (Z.to_nat ((endDate - current) / w + 1)) with O by lia.
    assert (w * ((endDate - current) / w) <= w * (-2)) by (apply Z.mul_le_mono_nonneg_l; lia).
    lia.
Qed.

Lemma loopDates_loopFuel (current endDate stepDays : Z) :
  0 < stepDays ->
  loopDates (loopFuel current endDate (stepDays * MS_PER_DAY)) current endDate stepDays
  = datesFrom current stepDays (loopFuel current endDate (stepDays * MS_PER_DAY)).
Proof.
  intros Hs. apply loopDates_datesFrom. intros k Hk. apply loopFuel_passes; assumption.
Qed.

(** More fuel changes nothing: the loops stop on their guard. *)
Lemma loopDates_more_fuel (endDate stepDays : Z) (extra fuel : nat) (current : Z) :
  0 < stepDays ->
  endDate < addDays current (stepDays * Z.of_nat fuel) ->
  loopDates (fuel + extra) current endDate stepDays = loopDates fuel current endDate stepDays.
Proof.
  intros Hs. revert current. induction fuel as [|fuel IH]; intros current Hex.
  - simpl. destruct extra as [|extra]; [reflexivity|]. simpl.
    unfold addDays in Hex. destruct (Z.leb_spec current endDate); [lia|reflexivity].
  - simpl. destruct (current <=? endDate); [|reflexivity].
    f_equal. apply IH. unfold addDays in *. lia.
Qed.

Section Buckets.

Variable tz : Z.
Variable es : list Entry.

Lemma aggregateByDay_loop_unfold (endDate : Z) (fuel : nat) (current : Z) (data : ChartData) :
  aggregateByDay_loop tz fuel es endDate current data
  = pushAll (fun c => formatChartLabel tz c false) (dayEntriesOf es)
            (loopDates fuel current endDate 1) data.
Proof.
  revert current data. induction fuel as [|fuel IH]; intros current data; [reflexivity|].
  cbn [aggregateByDay_loop loopDates]. destruct (current <=? endDate); [|reflexivity].
  rewrite IH. reflexivity.
Qed.

Lemma aggregateByWeek_loop_unfold (endDate : Z) (fuel : nat) (current : Z) (data : ChartData) :
  aggregateByWeek_loop tz fuel es endDate current data
  = pushAll (fun c => formatChartLabel tz c true) (weekEntriesOf es)
            (loopDates fuel current endDate 7) data.
Proof.
  revert current data. induction fuel as [|fuel IH]; intros current data; [reflexivity|].
  cbn [aggregateByWeek_loop loopDates]. destruct (current <=? endDate); [|reflexivity].
  rewrite IH. reflexivity.
Qed.

Lemma pushAll_spec (label : Z -> string) (bucket : Z -> list Entry)
      (dates : list Z) (data : ChartData) :
  pushAll label bucket dates data
  = {| labels := labels data ++ map label dates;
       beer := beer data ++ map (fun c => countCategory "beer" (bucket c)) dates;
       wine := wine data ++ map (fun c => countCategory "wine" (bucket c)) dates;
       liquor := liquor data ++ map (fun c => countCategory "liquor" (bucket c)) dates;
       smoking := smoking data ++ map (fun c => countCategory "smoking" (bucket c)) dates |}.
Proof.
  unfold pushAll. revert data. induction dates as [|c dates IH]; intros data; simpl.
  - rewrite !app_nil_r. destruct data; reflexivity.
  - rewrite IH. simpl. rewrite <- !app_assoc. reflexivity.
Qed.

Lemma countCategory_weekEntriesOf (c : string) (current : Z) :
  countCategory c (weekEntriesOf es current) = countIn c es current (addDays current 6).
Proof.
  unfold countCategory, weekEntriesOf, countIn.
  induction es as [|e l IH]; [reflexivity|]. simpl.
  destruct (current <=? timestamp e) eqn:H1;
    destruct (timestamp e <=? addDays current 6) eqn:H2;
    destruct (category e =? c)%string eqn:H3;
    simpl; rewrite ?H3; simpl; rewrite ?IH; reflexivity.
Qed.

End Buckets.

Lemma formatChartLabel_shortDate (tz date : Z) (isWeek : bool) :
  formatChartLabel tz date isWeek = shortDate tz date.
Proof. destruct isWeek; reflexivity. Qed.

(** ** Week mode *)

Section WeekStart.

Variable tz : Z.
Variable windowStart : Z.

Lemma weekLoopStart_sunday : getDay tz (weekLoopStart tz windowStart) = 0.
Proof.
  unfold weekLoopStart, getDay. rewrite addDays_localDay.
  set (d := localDay tz (setHours tz windowStart 0 0 0 0)).
  replace (d + - ((d + 4) mod 7) + 4) with ((d + 4) - (d + 4) mod 7) by lia.
  rewrite Zminus_mod_idemp_r, Z.sub_diag. reflexivity.
Qed.

Lemma weekLoopStart_midnight : localTimeOfDay tz (weekLoopStart tz windowStart) = 0.
Proof.
  unfold weekLoopStart. rewrite addDays_timeOfDay. apply setHours_midnight_timeOfDay.
Qed.

Lemma weekLoopStart_on_or_before :
  weekLoopStart tz windowStart <= windowStart < addDays (weekLoopStart tz windowStart) 7.
Proof.
  unfold weekLoopStart.
  pose proof (getDay_bound tz (setHours tz windowStart 0 0 0 0)).
  pose proof (setHours_midnight_le tz windowStart).
  pose proof (setHours_midnight_gt tz windowStart).
  unfold addDays, MS_PER_DAY in *. lia.
Qed.

End WeekStart.

Lemma aggregateByWeek_spec (tz : Z) (es : list Entry) (windowStart windowEnd : Z) :
  aggregateByWeek tz es windowStart windowEnd
  = pushAll (fun c => formatChartLabel tz c true) (weekEntriesOf es)
            (datesFrom (weekLoopStart tz windowStart) 7
                       (loopFuel (weekLoopStart tz windowStart) windowEnd (7 * MS_PER_DAY)))
            emptyChartData.
Proof.
  unfold aggregateByWeek, weekLoopStart. cbv zeta.
  rewrite aggregateByWeek_loop_unfold, loopDates_loopFuel by lia. reflexivity.
Qed.

(** What the week loop computes, for every window and every event list:
    the first bucket starts at the local midnight of the Sunday on or before
    [window.start]; the bucket starts are 7 days apart and are exactly those
    that are [<= window.end]; the label of a bucket is the short date of its
    start day; the count of a category in a bucket is the number of events of
    that category from the bucket start up to the instant 6 days after it,
    the midnight that opens the Saturday: the rest of the Saturday is not in
    it. *)
Lemma aggregateByWeek_buckets (tz : Z) (es : list Entry) (windowStart windowEnd : Z) :
  exists (sunday : Z) (n : nat),
    (getDay tz sunday = 0 /\ localTimeOfDay tz sunday = 0
     /\ sunday <= windowStart < addDays sunday 7)
    /\ (forall k, (k < n)%nat -> addDays sunday (7 * Z.of_nat k) <= windowEnd)
    /\ windowEnd < addDays sunday (7 * Z.of_nat n)
    /\ let starts := datesFrom sunday 7 n in
       let data := aggregateByWeek tz es windowStart windowEnd in
       labels data = map (shortDate tz) starts
       /\ beer data = map (fun s => countIn "beer" es s (addDays s 6)) starts
       /\ wine data = map (fun s => countIn "wine" es s (addDays s 6)) starts
       /\ liquor data = map (fun s => countIn "liquor" es s (addDays s 6)) starts
       /\ smoking data = map (fun s => countIn "smoking" es s (addDays s 6)) starts.
Proof.
  exists (weekLoopStart tz windowStart),
         (loopFuel (weekLoopStart tz windowStart) windowEnd (7 * MS_PER_DAY)).
  split; [|split; [|split]].
  - split; [apply weekLoopStart_sunday|].
    split; [apply weekLoopStart_midnight|apply weekLoopStart_on_or_before].
  - intros k Hk. apply loopFuel_passes; [lia|exact Hk].
  - apply loopFuel_exit. lia.
  - cbv zeta. rewrite aggregateByWeek_spec, pushAll_spec. simpl.
    repeat split; apply map_ext; intros s;
      first [apply formatChartLabel_shortDate | apply countCategory_weekEntriesOf].
Qed.

(** The fuel of the week loop does not cut it short. *)
Lemma aggregateByWeek_loop_more_fuel (tz : Z) (es : list Entry) (windowEnd current : Z)
      (extra : nat) (data : ChartData) :
  aggregateByWeek_loop tz (loopFuel current windowEnd (7 * MS_PER_DAY) + extra) es windowEnd
                       current data
  = aggregateByWeek_loop tz (loopFuel current windowEnd (7 * MS_PER_DAY)) es windowEnd
                         current data.
Proof.
  rewrite !aggregateByWeek_loop_unfold. f_equal.
  apply loopDates_more_fuel; [lia|]. apply loopFuel_exit. lia.
Qed.

Lemma aggregateByDay_loop_more_fuel (tz : Z) (es : list Entry) (windowEnd current : Z)
      (extra : nat) (data : ChartData) :
  aggregateByDay_loop tz (loopFuel current windowEnd MS_PER_DAY + extra) es windowEnd
                      current data
  = aggregateByDay_loop tz (loopFuel current windowEnd MS_PER_DAY) es windowEnd current data.
Proof.
  rewrite !aggregateByDay_loop_unfold. f_equal.
  replace MS_PER_DAY with (1 * MS_PER_DAY) by lia.
  apply loopDates_more_fuel; [lia|]. apply loopFuel_exit. lia.
Qed.

(** ** Entry management *)

(** Every step of [app.js] is the step of [part_000] in GitHub mode. *)
Lemma AppJs_saveData_sim (put : PutBody -> PutResult) (newEntries : list Entry)
      (st : AppJs.State) :
  Part000.saveData (envOfAppJs put) newEntries (ofAppJs st)
  = ofAppJsResult (AppJs.saveData put newEntries st).
Proof.
  unfold Part000.saveData, AppJs.saveData, ofAppJsResult. simpl.
  destruct (put _); reflexivity.
Qed.

Lemma AppJs_addEntry_sim (dateNow newDate : Z) (put : PutBody -> PutResult) (cat : string)
      (st : AppJs.State) :
  Part000.addEntry dateNow newDate (envOfAppJs put) cat (ofAppJs st)
  = ofAppJsResult (AppJs.addEntry dateNow newDate put cat st).
Proof.
  unfold Part000.addEntry, AppJs.addEntry.
  change (Part000.isLocal (ofAppJs st)) with false.
  change (Part000.isConfigured (ofAppJs st)) with (AppJs.isConfigured st).
  simpl. destruct (AppJs.isConfigured st); simpl; [|reflexivity].
  apply AppJs_saveData_sim.
Qed.

Lemma AppJs_deleteEntry_sim (confirmed : bool) (put : PutBody -> PutResult) (i : string)
      (st : AppJs.State) :
  Part000.deleteEntry confirmed (envOfAppJs put) i (ofAppJs st)
  = ofAppJsResult (AppJs.deleteEntry confirmed put i st).
Proof.
  unfold Part000.deleteEntry, AppJs.deleteEntry.
  destruct confirmed; simpl; [|reflexivity].
  apply AppJs_saveData_sim.
Qed.

Lemma toString_inj (a b : Z) : toString a = toString b -> a = b.
Proof.
  unfold toString. intros H.
  apply DecimalZ.to_int_inj.
  assert (Hs : Some (Z.to_int a) = Some (Z.to_int b)).
  { rewrite <- (NilEmpty.isi (Z.to_int a)), <- (NilEmpty.isi (Z.to_int b)), H. reflexivity. }
  injection Hs as Hs. exact Hs.
Qed.

(** [addEntry] appends the new entry or leaves the list as it was. *)
Lemma Part000_addEntry_entries (dateNow newDate : Z) (env : Part000.Env) (cat : string)
      (st : Part000.State) :
  let es := entries (Part000.currentData st) in
  let es' := entries (Part000.currentData (fst (Part000.addEntry dateNow newDate env cat st))) in
  es' = es \/ es' = (es ++ [mkEntry (toString dateNow) newDate cat])%list.
Proof.
  unfold Part000.addEntry, Part000.saveData, Part000.saveDataLocal.
  destruct (negb (Part000.isLocal st) && negb (Part000.isConfigured st)); simpl; [left; reflexivity|].
  destruct (Part000.isLocal st); simpl.
  - destruct (Part000.setItem env); simpl; right; reflexivity.
  - destruct (Part000.PUT env _); simpl; [right|left]; reflexivity.
Qed.

Lemma Part000_runAdds_unique (ops : list Part000.AddOp) (st0 : Part000.State) :
  NoDup (ids (entries (Part000.currentData st0))) ->
  NoDup (map Part000.op_dateNow ops) ->
  (forall op, In op ops ->
     ~ In (toString (Part000.op_dateNow op)) (ids (entries (Part000.currentData st0)))) ->
  NoDup (ids (entries (Part000.currentData (Part000.runAdds ops st0)))).
Proof.
  revert st0. induction ops as [|op ops IH]; intros st0 Hnd Hclk Hfresh; [exact Hnd|].
  unfold Part000.runAdds. simpl. fold (Part000.runAdds ops).
  inversion Hclk as [|? ? Hnotin Hclk']; subst.
  pose proof (Part000_addEntry_entries (Part000.op_dateNow op) (Part000.op_newDate op)
                (Part000.op_env op) (Part000.op_category op) st0) as Hstep.
  cbv zeta in Hstep.
  apply IH; [| exact Hclk' |].
  - destruct Hstep as [-> | ->]; [exact Hnd|].
    unfold ids. rewrite map_app. simpl. apply NoDup_app; [exact Hnd|repeat constructor; intros []|].
    intros a Ha [<-|[]]. apply (Hfresh op); [left; reflexivity|exact Ha].
  - intros op' Hin' Hmem.
    destruct Hstep as [Heq | Heq]; rewrite Heq in Hmem.
    + apply (Hfresh op'); [right; exact Hin'|exact Hmem].
    + unfold ids in Hmem. rewrite map_app in Hmem. apply in_app_or in Hmem.
      destruct Hmem as [Hmem|[Hmem|[]]].
      * apply (Hfresh op'); [right; exact Hin'|exact Hmem].
      * simpl in Hmem. apply toString_inj in Hmem.
        apply Hnotin. rewrite Hmem. apply in_map. exact Hin'.
Qed.

(** C7, as amended.  Start from a store whose ids are pairwise distinct.
    For every sequence of add operations whose [Date.now()] readings are
    pairwise distinct and none of which prints to an id already stored, no
    two stored events share an id afterwards, in either mode and whatever the
    saves answer. *)
Theorem C7_ids_unique_for_distinct_clock_readings
        (ops : list Part000.AddOp) (st0 : Part000.State) :
  NoDup (ids (entries (Part000.currentData st0))) ->
  NoDup (map Part000.op_dateNow ops) ->
  (forall op, In op ops ->
     ~ In (toString (Part000.op_dateNow op)) (ids (entries (Part000.currentData st0)))) ->
  NoDup (ids (entries (Part000.currentData (Part000.runAdds ops st0)))).
Proof. apply Part000_runAdds_unique. Qed.

Lemma C7_ids_unique_witness :
  NoDup (ids (entries (Part000.currentData
    (Part000.runAdds [Part000.mkAddOp 1704535200000 1704535200000 savesSucceed "beer";
                      Part000.mkAddOp 1704535200001 1704535200001 savesSucceed "wine"]
                     localEmpty)))).
Proof.
  apply C7_ids_unique_for_distinct_clock_readings.
  - simpl. constructor.
  - simpl. repeat constructor; simpl; intuition discriminate.
  - simpl. intros op _ H. exact H.
Defined.

(** C7 as stated fails: two presses of a category button within the same
    millisecond read the same [Date.now()] and store two events with the
    same id. *)
Lemma C7_counterexample :
  ~ NoDup (ids (entries (Part000.currentData
      (Part000.runAdds [Part000.mkAddOp 1704535200000 1704535200000 savesSucceed "beer";
                        Part000.mkAddOp 1704535200000 1704535200000 savesSucceed "wine"]
                       localEmpty)))).
Proof.
  vm_compute. intros H. inversion H as [|? ? Hnotin _]; subst.
  apply Hnotin. left; reflexivity.
Qed.

(** The same holds for the runs of [app.js]. *)
Lemma AppJs_runAdds_sim (ops : list (Z * Z * (PutBody -> PutResult) * string))
      (st : AppJs.State) :
  ofAppJs (AppJs_runAdds ops st) = Part000.runAdds (map ofAppJsOp ops) (ofAppJs st).
Proof.
  revert st. induction ops as [|[[[dateNow newDate] put] cat] ops IH]; intros st; [reflexivity|].
  unfold AppJs_runAdds, Part000.runAdds. simpl.
  fold (AppJs_runAdds ops) (Part000.runAdds (map ofAppJsOp ops)).
  rewrite IH, AppJs_addEntry_sim. reflexivity.
Qed.

Lemma filter_absent_id (i : string) (es : list Entry) :
  ~ In i (ids es) -> filter (fun e => negb (id e =? i)%string) es = es.
Proof.
  induction es as [|e es IH]; intros Hn; [reflexivity|]. simpl in *.
  destruct (String.eqb_spec (id e) i) as [Heq|Hne]; simpl.
  - exfalso. apply Hn. left; exact Heq.
  - rewrite IH; [reflexivity|]. intros H. apply Hn. right; exact H.
Qed.





(** For every save in GitHub mode whose PUT fails (a stale revision
    included), [currentData] (the event list and the revision) is left as it
    was, the status shows "Error saving: ..." with type error, and the call
    returns normally. *)
Lemma failed_remote_save_keeps_store (env : Part000.Env) (newEntries : list Entry)
        (st : Part000.State) (msg : string) :
  Part000.isLocal st = false ->
  Part000.PUT env (putBody newEntries (sha (Part000.currentData st))) = PutError msg ->
  let r := Part000.saveData env newEntries st in
  Part000.currentData (fst r) = Part000.currentData st
  /\ Part000.status (fst r) = Some (mkStatus ("Error saving: " ++ msg) "error")
  /\ Part000.localData (fst r) = Part000.localData st
  /\ snd r = Returned.
Proof.
  intros Hmode Hput. unfold Part000.saveData. rewrite Hmode.
  unfold putBody in Hput. simpl. rewrite Hput. simpl. repeat split.
Qed.

Lemma failed_remote_save_keeps_store_example :
  Part000.currentData
    (fst (Part000.saveData savesFail [mkEntry "1704535200000" 1704535200000 "beer"] githubEmpty))
  = Part000.currentData githubEmpty.
Proof.
  apply (failed_remote_save_keeps_store savesFail
           [mkEntry "1704535200000" 1704535200000 "beer"]
           githubEmpty "GitHub API error: 409 - conflict"); reflexivity.
Defined.

(** C9, on the local mode of [part_000]: a save whose
    [localStorage.setItem] throws.  [saveData] has already assigned the new
    list to [currentData.entries]: the in-memory list is the new one (so it
    has changed whenever the new list differs from the old), the status
    element shows what it showed before, no error, and the promise is
    rejected with the exception.  The GitHub branch of the same function
    assigns only after the PUT went through and shows the error. *)
Theorem C9_local_save_failure_changes_store (env : Part000.Env) (newEntries : list Entry)
        (st : Part000.State) (msg : string) :
  Part000.isLocal st = true ->
  Part000.setItem env = SetItemThrows msg ->
  let r := Part000.saveData env newEntries st in
  entries (Part000.currentData (fst r)) = newEntries
  /\ (newEntries <> entries (Part000.currentData st) ->
      Part000.currentData (fst r) <> Part000.currentData st)
  /\ Part000.status (fst r) = Part000.status st
  /\ Part000.localData (fst r) = Part000.localData st
  /\ snd r = Rejected msg.
Proof.
  intros Hl Hs. cbv zeta. unfold Part000.saveData. rewrite Hl.
  unfold Part000.saveDataLocal. rewrite Hs. cbn [fst snd].
  split; [reflexivity|]. split; [|repeat split].
  intros Hne Heq. apply Hne. rewrite <- Heq. reflexivity.
Qed.

Lemma C9_local_save_failure_witness :
  let newEntries := [mkEntry "1704535200000" 1704535200000 "beer"] in
  let r := Part000.saveData savesFail newEntries localEmpty in
  entries (Part000.currentData (fst r)) = newEntries
  /\ Part000.currentData (fst r) <> Part000.currentData localEmpty
  /\ Part000.status (fst r) = None
  /\ snd r = Rejected "QuotaExceededError".
Proof.
  cbv zeta.
  destruct (C9_local_save_failure_changes_store savesFail
              [mkEntry "1704535200000" 1704535200000 "beer"] localEmpty "QuotaExceededError"
              eq_refl eq_refl) as (He & Hc & Hs & _ & Hr).
  split; [exact He|]. split; [apply Hc; discriminate|]. split; [exact Hs|exact Hr].
Defined.

(** In [app.js] every failed save leaves [currentData] as it was. *)
Lemma AppJs_failed_save (put : PutBody -> PutResult) (newEntries : list Entry)
      (st : AppJs.State) (msg : string) :
  put (putBody newEntries (sha (AppJs.currentData st))) = PutError msg ->
  let r := AppJs.saveData put newEntries st in
  AppJs.currentData (fst r) = AppJs.currentData st
  /\ AppJs.status (fst r) = Some (mkStatus ("Error saving: " ++ msg) "error")
  /\ snd r = Returned.
Proof.
  intros Hput. unfold AppJs.saveData. unfold putBody in Hput. simpl. rewrite Hput.
  simpl. repeat split.
Qed.

(** ** The table view *)

Section SortedLists.

Context {A : Type}.
Variable R : A -> A -> Prop.

Lemma StronglySorted_app (l1 l2 : list A) :
  StronglySorted R l1 -> StronglySorted R l2 ->
  (forall a b, In a l1 -> In b l2 -> R a b) ->
  StronglySorted R (l1 ++ l2).
Proof.
  induction l1 as [|x l1 IH]; intros H1 H2 H12; simpl; [exact H2|].
  apply StronglySorted_inv in H1. destruct H1 as [H1 Hx].
  constructor.
  - apply IH; [exact H1|exact H2|]. intros a b Ha Hb. apply H12; [right; exact Ha|exact Hb].
  - apply Forall_app. split; [exact Hx|].
    apply Forall_forall. intros b Hb. apply H12; [left; reflexivity|exact Hb].
Qed.

Lemma StronglySorted_filter (p : A -> bool) (l : list A) :
  StronglySorted R l -> StronglySorted R (filter p l).
Proof.
  induction 1 as [|x l Hs IH Hx]; simpl; [constructor|].
  destruct (p x); [|exact IH].
  constructor; [exact IH|].
  rewrite Forall_forall in *. intros y Hy. apply filter_In in Hy. apply Hx, Hy.
Qed.

End SortedLists.

Lemma StronglySorted_rev {A : Type} (R : A -> A -> Prop) (l : list A) :
  StronglySorted R l -> StronglySorted (fun a b => R b a) (rev l).
Proof.
  induction 1 as [|x l Hs IH Hx]; simpl; [constructor|].
  apply StronglySorted_app; [exact IH|repeat constructor|].
  intros a b Ha [<-|[]]. apply in_rev in Ha.
  rewrite Forall_forall in Hx. apply Hx, Ha.
Qed.

Lemma StronglySorted_map {A B : Type} (f : A -> B) (R : B -> B -> Prop) (l : list A) :
  StronglySorted (fun a b => R (f a) (f b)) l -> StronglySorted R (map f l).
Proof.
  induction 1 as [|x l Hs IH Hx]; simpl; [constructor|].
  constructor; [exact IH|]. apply Forall_map. exact Hx.
Qed.

Lemma datesFrom_S (first stepDays : Z) (n : nat) :
  datesFrom first stepDays (S n) = first :: datesFrom (addDays first stepDays) stepDays n.
Proof.
  unfold datesFrom. simpl. f_equal; [unfold addDays; lia|].
  rewrite <- seq_shift, map_map. apply map_ext. intros k. unfold addDays. lia.
Qed.

Lemma datesFrom_ge (stepDays : Z) (n : nat) (first d : Z) :
  0 < stepDays -> In d (datesFrom first stepDays n) -> first <= d.
Proof.
  intros Hs. unfold datesFrom. rewrite in_map_iff. intros (k & <- & _).
  unfold addDays, MS_PER_DAY. nia.
Qed.

Lemma datesFrom_increasing (stepDays : Z) (n : nat) (first : Z) :
  0 < stepDays -> StronglySorted Z.lt (datesFrom first stepDays n).
Proof.
  intros Hs. revert first. induction n as [|n IH]; intros first; [constructor|].
  rewrite datesFrom_S. constructor; [apply IH|].
  apply Forall_forall. intros d Hd. apply datesFrom_ge in Hd; [|exact Hs].
  unfold addDays, MS_PER_DAY in Hd. lia.
Qed.

Lemma datesFrom_midnight (tz stepDays first : Z) (n : nat) (d : Z) :
  localTimeOfDay tz first = 0 -> In d (datesFrom first stepDays n) ->
  localTimeOfDay tz d = 0.
Proof.
  intros H0. unfold datesFrom. rewrite in_map_iff. intros (k & <- & _).
  rewrite addDays_timeOfDay. exact H0.
Qed.

Lemma rowsOf_cons (es : list Entry) (current : Z) (dates : list Z) :
  rowsOf es (current :: dates) = (rowsOf es [current] ++ rowsOf es dates)%list.
Proof.
  unfold rowsOf. cbn [map filter].
  destruct (0 <? Part000.row_total (rowOf es current))%nat; reflexivity.
Qed.

Lemma renderTableView_loop_step (es : list Entry) (windowEnd : Z) (fuel : nat)
      (current : Z) (dailyData : list Part000.DayRow) :
  Part000.renderTableView_loop (S fuel) es windowEnd current dailyData
  = if current <=? windowEnd
    then Part000.renderTableView_loop fuel es windowEnd (addDays current 1)
                                      (dailyData ++ rowsOf es [current])%list
    else dailyData.
Proof.
  cbn [Part000.renderTableView_loop]. destruct (current <=? windowEnd); [|reflexivity].
  f_equal. unfold rowsOf, rowOf, dayEntriesOf. cbn [map filter Part000.row_total].
  destruct (0 <? _)%nat; [reflexivity|rewrite app_nil_r; reflexivity].
Qed.

Lemma renderTableView_loop_unfold (es : list Entry) (windowEnd : Z) (fuel : nat)
      (current : Z) (dailyData : list Part000.DayRow) :
  Part000.renderTableView_loop fuel es windowEnd current dailyData
  = (dailyData ++ rowsOf es (loopDates fuel current windowEnd 1))%list.
Proof.
  revert current dailyData. induction fuel as [|fuel IH]; intros current dailyData.
  - cbn [Part000.renderTableView_loop loopDates]. unfold rowsOf. cbn [map filter].
    rewrite app_nil_r. reflexivity.
  - rewrite renderTableView_loop_step. cbn [loopDates].
    destruct (current <=? windowEnd).
    + rewrite IH, (rowsOf_cons es current (loopDates _ _ _ _)), app_assoc. reflexivity.
    + unfold rowsOf. cbn [map filter]. rewrite app_nil_r. reflexivity.
Qed.

(** The table body lists, last day first, the days of the window that have
    a positive total. *)
Lemma renderTableView_rows (tz : Z) (es : list Entry) (period now : Z) :
  let windowStart := fst (Part000.dateRange tz es period now) in
  let windowEnd := snd (Part000.dateRange tz es period now) in
  let current := setHours tz windowStart 0 0 0 0 in
  tableRows (Part000.renderTableView tz es period now)
  = rev (rowsOf (filterRange es windowStart windowEnd)
                (datesFrom current 1 (loopFuel current windowEnd MS_PER_DAY))).
Proof.
  unfold Part000.renderTableView.
  destruct (Part000.dateRange tz es period now) as [windowStart windowEnd]. cbn [fst snd].
  rewrite renderTableView_loop_unfold. cbn [app].
  replace MS_PER_DAY with (1 * MS_PER_DAY) by lia.
  rewrite loopDates_loopFuel by lia.
  destruct (rowsOf _ _) as [|r rows]; reflexivity.
Qed.

(** The order of the rows of the table view, for every event list, period
    and now: every row is dated later than all the rows below it; each row is
    dated at a local midnight and has a positive total. *)
Lemma table_rows_newest_first (tz : Z) (es : list Entry) (period now : Z) :
  let rows := tableRows (Part000.renderTableView tz es period now) in
  StronglySorted laterDay rows
  /\ Forall (fun r => localTimeOfDay tz (Part000.row_date r) = 0
                      /\ (0 < Part000.row_total r)%nat) rows.
Proof.
  cbv zeta. rewrite renderTableView_rows. cbv zeta.
  set (windowStart := fst (Part000.dateRange tz es period now)).
  set (windowEnd := snd (Part000.dateRange tz es period now)).
  set (current := setHours tz windowStart 0 0 0 0).
  set (n := loopFuel current windowEnd MS_PER_DAY).
  set (fes := filterRange es windowStart windowEnd).
  split.
  - apply (StronglySorted_rev (fun a b => Part000.row_date a < Part000.row_date b)).
    unfold rowsOf. apply StronglySorted_filter. apply StronglySorted_map.
    simpl. apply datesFrom_increasing. lia.
  - apply Forall_forall. intros r Hr. apply in_rev in Hr.
    unfold rowsOf in Hr. apply filter_In in Hr. destruct Hr as [Hr Hpos].
    apply in_map_iff in Hr. destruct Hr as (d & <- & Hd). split.
    + simpl. apply (datesFrom_midnight tz 1 current n d); [|exact Hd].
      apply setHours_midnight_timeOfDay.
    + apply Nat.ltb_lt. exact Hpos.
Qed.

(** ** Buckets against the summary *)

(** C5, week mode in [part_000], zone UTC: one event, wine, logged on
    Saturday 2024-01-06 at 10:00, period 90, now 2024-01-10 12:00.  The event
    passes the window filter and the summary counts it, but the bucket of the
    week of Sunday 2023-12-31 ends at Saturday 00:00 and the next bucket
    starts on Sunday 2024-01-07: no bucket counts the event. *)
Theorem C5_week_buckets_lose_saturday_event :
  let e := mkEntry "1704535200000" 1704535200000 "wine" in
  let pass := Part000.updateChart 0 [e] 90 1704888000000 in
  filteredEntries pass = [e]
  /\ getDay 0 (timestamp e) = 6
  /\ stats_wine (summary pass) = 1%nat
  /\ labels (aggregatedData pass) = ["Dec 31"; "Jan 7"]
  /\ wine (aggregatedData pass) = [0%nat; 0%nat]
  /\ list_sum (wine (aggregatedData pass)) <> stats_wine (summary pass).
Proof. vm_compute. repeat split; discriminate. Qed.

(** C6, day mode in [part_000], zone UTC+9 (Asia/Tokyo, no daylight
    saving): one event, beer, logged on 2024-01-03 at 10:00 local time,
    period 7, now 2024-01-05 12:00 local time.  The buckets are the local days
    Jan 3, Jan 4 and Jan 5; the event's local day is Jan 3, and it is counted
    in the bucket of Jan 4: the loop compares UTC dates, and the UTC date of
    the local midnight that opens Jan 4 is 2024-01-03. *)
Theorem C6_day_bucket_of_another_day :
  let tokyo := 32400000 in
  let e := mkEntry "1704243600000" 1704243600000 "beer" in
  let pass := Part000.updateChart tokyo [e] 7 1704423600000 in
  filteredEntries pass = [e]
  /\ shortDate tokyo (timestamp e) = "Jan 3"
  /\ labels (aggregatedData pass) = ["Jan 3"; "Jan 4"; "Jan 5"]
  /\ beer (aggregatedData pass) = [0%nat; 1%nat; 0%nat].
Proof. vm_compute. repeat split. Qed.

(** In the same zone an event of the last day of the window is counted in
    no bucket at all. *)
Lemma day_buckets_lose_event_of_today :
  let tokyo := 32400000 in
  let e := mkEntry "1704243600000" 1704243600000 "beer" in
  let pass := Part000.updateChart tokyo [e] 7 1704250800000 in
  filteredEntries pass = [e]
  /\ labels (aggregatedData pass) = ["Jan 3"]
  /\ beer (aggregatedData pass) = [0%nat]
  /\ stats_beer (summary pass) = 1%nat.
Proof. vm_compute. repeat split. Qed.

(** ** Day mode: what the loop counts *)

Lemma doe_split (doe : Z) :
  0 <= doe < 146097 ->
  let yoe := (doe - doe / 1460 + doe / 36524 - doe / 146096) / 365 in
  let doy := doe - (365 * yoe + yoe / 4 - yoe / 100) in
  0 <= yoe < 400 /\ 0 <= doy < 366.
Proof. intros H. cbv zeta. Z.to_euclidean_division_equations; lia. Qed.

Lemma days_from_civil_from_days (z : Z) : days_from_civil (civil_from_days z) = z.
Proof.
  unfold civil_from_days.
  remember ((z + 719468) / 146097) as era eqn:Eera.
  remember (z + 719468 - era * 146097) as doe eqn:Edoe.
  assert (Hdoe : 0 <= doe < 146097).
  { subst doe era. pose proof (Z.div_mod (z + 719468) 146097).
    pose proof (Z.mod_pos_bound (z + 719468) 146097). lia. }
  destruct (doe_split doe Hdoe) as [Hyoe Hdoy].
  remember ((doe - doe / 1460 + doe / 36524 - doe / 146096) / 365) as yoe eqn:Eyoe.
  remember (doe - (365 * yoe + yoe / 4 - yoe / 100)) as doy eqn:Edoy.
  remember ((5 * doy + 2) / 153) as mp eqn:Emp.
  clear Eyoe Eera.
  assert (Hmp : 0 <= mp < 12)
    by (subst mp; clear Edoy; Z.to_euclidean_division_equations; lia).
  cbv zeta. unfold days_from_civil.
  assert (Hera : (yoe + era * 400) / 400 = era).
  { rewrite Z.div_add by lia. rewrite Z.div_small by lia. lia. }
  destruct (Z.ltb_spec mp 10) as [Hlt|Hge].
  - destruct (Z.leb_spec (mp + 3) 2) as [H2|H2]; [lia|].
    rewrite Hera. replace (mp + 3 - 3) with mp by lia.
    replace (yoe + era * 400 - era * 400) with yoe by lia. lia.
  - destruct (Z.leb_spec (mp - 9) 2) as [H2|H2]; [|lia].
    replace (yoe + era * 400 + 1 - 1) with (yoe + era * 400) by lia.
    rewrite Hera. replace (mp - 9 + 9) with mp by lia.
    replace (yoe + era * 400 - era * 400) with yoe by lia. lia.
Qed.

(** Two day numbers with the same calendar date are equal: comparing the
    "YYYY-MM-DD" texts compares the UTC day numbers. *)
Lemma civil_from_days_inj (a b : Z) : civil_from_days a = civil_from_days b -> a = b.
Proof.
  intros H. rewrite <- (days_from_civil_from_days a), <- (days_from_civil_from_days b), H.
  reflexivity.
Qed.

Lemma isoDate_eqb_days (a b : Z) :
  isoDate_eqb (isoDate a) (isoDate b) = (a / MS_PER_DAY =? b / MS_PER_DAY).
Proof.
  unfold isoDate.
  destruct (Z.eqb_spec (a / MS_PER_DAY) (b / MS_PER_DAY)) as [Heq|Hne].
  - rewrite Heq. destruct (civil_from_days (b / MS_PER_DAY)) as [[y m] d].
    unfold isoDate_eqb. rewrite !Z.eqb_refl. reflexivity.
  - destruct (isoDate_eqb _ _) eqn:Hb; [|reflexivity].
    exfalso. apply Hne. apply civil_from_days_inj.
    destruct (civil_from_days (a / MS_PER_DAY)) as [[y1 m1] d1].
    destruct (civil_from_days (b / MS_PER_DAY)) as [[y2 m2] d2].
    unfold isoDate_eqb in Hb.
    apply andb_true_iff in Hb. destruct Hb as [Hb Hd].
    apply andb_true_iff in Hb. destruct Hb as [Hy Hm].
    apply Z.eqb_eq in Hy, Hm, Hd. congruence.
Qed.

(** The count of a day bucket: the events whose UTC date is the UTC date of
    [current]. *)
Lemma countCategory_dayEntriesOf (c : string) (es : list Entry) (current : Z) :
  countCategory c (dayEntriesOf es current) = countOnUtcDay c es (current / MS_PER_DAY).
Proof.
  unfold countCategory, dayEntriesOf, countOnUtcDay.
  induction es as [|e l IH]; [reflexivity|]. cbn [filter].
  rewrite isoDate_eqb_days.
  destruct (timestamp e / MS_PER_DAY =? current / MS_PER_DAY) eqn:H1;
    destruct (category e =? c)%string eqn:H3;
    cbn [filter andb List.length]; rewrite ?H3; cbn [List.length]; rewrite ?IH; reflexivity.
Qed.

Lemma aggregateByDay_spec (tz : Z) (es : list Entry) (windowStart windowEnd : Z) :
  aggregateByDay tz es windowStart windowEnd
  = pushAll (fun c => formatChartLabel tz c false) (dayEntriesOf es)
            (datesFrom (setHours tz windowStart 0 0 0 0) 1
                       (loopFuel (setHours tz windowStart 0 0 0 0) windowEnd MS_PER_DAY))
            emptyChartData.
Proof.
  unfold aggregateByDay. cbv zeta. rewrite aggregateByDay_loop_unfold.
  replace MS_PER_DAY with (1 * MS_PER_DAY) at 1 2 by lia.
  rewrite loopDates_loopFuel by lia. reflexivity.
Qed.

(** X2.  Day mode, for every zone: there is one bucket per local calendar day
    from the day of [window.start] to the last local midnight that is
    [<= window.end]; a bucket is labelled with the short date of its local
    day, and counts the events whose UTC date is the UTC date of the local
    midnight that opens that day. *)
Lemma aggregateByDay_buckets (tz : Z) (es : list Entry) (windowStart windowEnd : Z) :
  exists n : nat,
    let first := setHours tz windowStart 0 0 0 0 in
    let days := datesFrom first 1 n in
    let data := aggregateByDay tz es windowStart windowEnd in
    (forall k, (k < n)%nat -> addDays first (Z.of_nat k) <= windowEnd)
    /\ windowEnd < addDays first (Z.of_nat n)
    /\ map (localDay tz) days = map (fun k => localDay tz windowStart + Z.of_nat k) (seq 0 n)
    /\ labels data = map (shortDate tz) days
    /\ beer data = map (fun d => countOnUtcDay "beer" es (d / MS_PER_DAY)) days
    /\ wine data = map (fun d => countOnUtcDay "wine" es (d / MS_PER_DAY)) days
    /\ liquor data = map (fun d => countOnUtcDay "liquor" es (d / MS_PER_DAY)) days
    /\ smoking data = map (fun d => countOnUtcDay "smoking" es (d / MS_PER_DAY)) days.
Proof.
  exists (loopFuel (setHours tz windowStart 0 0 0 0) windowEnd MS_PER_DAY). cbv zeta.
  split; [|split; [|split]].
  - intros k Hk. replace (Z.of_nat k) with (1 * Z.of_nat k) by lia.
    apply loopFuel_passes; [lia|]. replace (1 * MS_PER_DAY) with MS_PER_DAY by lia. exact Hk.
  - pose proof (loopFuel_exit (setHours tz windowStart 0 0 0 0) windowEnd 1 ltac:(lia)) as H.
    replace (1 * MS_PER_DAY) with MS_PER_DAY in H by lia.
    replace (1 * Z.of_nat (loopFuel (setHours tz windowStart 0 0 0 0) windowEnd MS_PER_DAY))
      with (Z.of_nat (loopFuel (setHours tz windowStart 0 0 0 0) windowEnd MS_PER_DAY)) in H by lia.
    exact H.
  - unfold datesFrom. rewrite map_map. apply map_ext. intros k.
    rewrite addDays_localDay, (setHours_midnight_localDay tz windowStart).
    unfold localDay at 1.
    replace (localDay tz windowStart * MS_PER_DAY - tz + tz)
      with (localDay tz windowStart * MS_PER_DAY) by lia.
    rewrite Z.div_mul by (unfold MS_PER_DAY; lia). lia.
  - rewrite aggregateByDay_spec, pushAll_spec. cbn [labels beer wine liquor smoking emptyChartData app].
    repeat split; apply map_ext; intros d;
      first [apply formatChartLabel_shortDate | apply countCategory_dayEntriesOf].
Qed.

(** ** Day mode in the zone UTC *)

Lemma list_sum_map_add {A : Type} (f g : A -> nat) (l : list A) :
  list_sum (map (fun x => (f x + g x)%nat) l) = (list_sum (map f l) + list_sum (map g l))%nat.
Proof. induction l as [|x l IH]; simpl; [reflexivity|]. rewrite IH. lia. Qed.

Lemma list_sum_map_zero {A : Type} (l : list A) :
  list_sum (map (fun _ => O) l) = O.
Proof. induction l as [|x l IH]; simpl; [reflexivity|exact IH]. Qed.

(** Among [n] consecutive numbers from [a] on, exactly one is [j]. *)
Lemma list_sum_one_hit (q j : Z) (n a : nat) :
  q + Z.of_nat a <= j < q + Z.of_nat a + Z.of_nat n ->
  list_sum (map (fun k => if j =? q + Z.of_nat k then 1%nat else O) (seq a n)) = 1%nat.
Proof.
  revert a. induction n as [|n IH]; intros a Hj; [lia|]. simpl.
  destruct (Z.eqb_spec j (q + Z.of_nat a)) as [Heq|Hne].
  - rewrite (map_ext_in _ (fun _ => O)); [rewrite list_sum_map_zero; reflexivity|].
    intros k Hk. apply in_seq in Hk.
    destruct (Z.eqb_spec j (q + Z.of_nat k)); [lia|reflexivity].
  - rewrite IH; [reflexivity|lia].
Qed.

Lemma countOnUtcDay_cons (c : string) (e : Entry) (es : list Entry) (day : Z) :
  countOnUtcDay c (e :: es) day
  = ((if (category e =? c)%string
      then (if (timestamp e / MS_PER_DAY =? day)%Z then 1 else 0)
      else 0)
     + countOnUtcDay c es day)%nat.
Proof.
  unfold countOnUtcDay. cbn [filter].
  destruct (category e =? c)%string, (timestamp e / MS_PER_DAY =? day); reflexivity.
Qed.

Lemma countCategory_cons (c : string) (e : Entry) (es : list Entry) :
  countCategory c (e :: es)
  = ((if (category e =? c)%string then 1 else 0) + countCategory c es)%nat.
Proof. unfold countCategory. cbn [filter]. destruct (category e =? c)%string; reflexivity. Qed.

(** In the zone UTC the day buckets of a window count every event of the
    window exactly once. *)
Lemma day_buckets_conserve_in_utc (c : string) (es : list Entry) (windowStart windowEnd : Z) :
  (forall e, In e es -> windowStart <= timestamp e <= windowEnd) ->
  let first := setHours 0 windowStart 0 0 0 0 in
  list_sum (map (fun d => countOnUtcDay c es (d / MS_PER_DAY))
                (datesFrom first 1 (loopFuel first windowEnd MS_PER_DAY)))
  = countCategory c es.
Proof.
  intros Hin first.
  set (n := loopFuel first windowEnd MS_PER_DAY).
  set (q := windowStart / MS_PER_DAY).
  assert (Hfirst : first = q * MS_PER_DAY).
  { unfold first. rewrite setHours_midnight_localDay. unfold localDay, q.
    rewrite Z.add_0_r. lia. }
  assert (Hexit : windowEnd < (q + Z.of_nat n) * MS_PER_DAY).
  { pose proof (loopFuel_exit first windowEnd 1 ltac:(lia)) as H.
    replace (1 * MS_PER_DAY) with MS_PER_DAY in H by lia. fold n in H.
    unfold addDays in H. lia. }
  unfold datesFrom. rewrite map_map.
  erewrite map_ext with (g := fun k => countOnUtcDay c es (q + Z.of_nat k)).
  2:{ intros k. f_equal. rewrite Hfirst. unfold addDays.
      replace (q * MS_PER_DAY + 1 * Z.of_nat k * MS_PER_DAY)
        with ((q + Z.of_nat k) * MS_PER_DAY) by lia.
      apply Z.div_mul. unfold MS_PER_DAY. lia. }
  clearbody n. clear Hfirst first.
  induction es as [|e es IH].
  - unfold countOnUtcDay, countCategory. simpl. apply list_sum_map_zero.
  - rewrite countCategory_cons.
    erewrite map_ext by (intros k; apply countOnUtcDay_cons).
    rewrite list_sum_map_add, IH by (intros e' He'; apply Hin; right; exact He').
    f_equal. destruct (category e =? c)%string; [|apply list_sum_map_zero].
    apply (list_sum_one_hit q (timestamp e / MS_PER_DAY) n 0).
    destruct (Hin e (or_introl eq_refl)) as [Hlo Hhi].
    split.
    + unfold q. rewrite Z.add_0_r. apply Z.div_le_mono; [unfold MS_PER_DAY; lia|exact Hlo].
    + rewrite Z.add_0_r. apply Z.div_lt_upper_bound; [unfold MS_PER_DAY; lia|]. lia.
Qed.

Lemma filterRange_In (es : list Entry) (windowStart windowEnd : Z) (e : Entry) :
  In e (filterRange es windowStart windowEnd) ->
  windowStart <= timestamp e <= windowEnd.
Proof.
  unfold filterRange. intros H. apply filter_In in H. destruct H as [_ H].
  apply andb_true_iff in H. destruct H as [H1 H2].
  apply Z.leb_le in H1, H2. lia.
Qed.

(** With the browser in the zone UTC and a period of at most 30 days, the
    buckets of one pass of [updateChart] add up, category by category, to the
    counts of the summary. *)
Lemma Part000_day_mode_conserves_in_utc (es : list Entry) (period now : Z) :
  period <= 30 ->
  let pass := Part000.updateChart 0 es period now in
  list_sum (beer (aggregatedData pass)) = stats_beer (summary pass)
  /\ list_sum (wine (aggregatedData pass)) = stats_wine (summary pass)
  /\ list_sum (liquor (aggregatedData pass)) = stats_liquor (summary pass)
  /\ list_sum (smoking (aggregatedData pass)) = stats_smoking (summary pass).
Proof.
  intros Hp. unfold Part000.updateChart.
  destruct (Part000.dateRange 0 es period now) as [windowStart windowEnd].
  destruct (Z.leb_spec period 30) as [_|Hgt]; [|lia].
  cbn [aggregatedData summary]. rewrite aggregateByDay_spec, pushAll_spec.
  cbn [labels beer wine liquor smoking emptyChartData app
       Part000.renderSummaryStats countStats stats_beer stats_wine stats_liquor stats_smoking].
  repeat split;
    (erewrite map_ext by (intros d; apply countCategory_dayEntriesOf));
    apply day_buckets_conserve_in_utc; intros e He;
    apply (filterRange_In es windowStart windowEnd e He).
Qed.

(** ** Runs of [app.js] *)

Lemma AppJs_runAdds_unique (ops : list (Z * Z * (PutBody -> PutResult) * string))
      (st0 : AppJs.State) :
  NoDup (ids (entries (AppJs.currentData st0))) ->
  NoDup (map (fun op => fst (fst (fst op))) ops) ->
  (forall op, In op ops ->
     ~ In (toString (fst (fst (fst op)))) (ids (entries (AppJs.currentData st0)))) ->
  NoDup (ids (entries (AppJs.currentData (AppJs_runAdds ops st0)))).
Proof.
  intros Hnd Hclk Hfresh.
  change (AppJs.currentData (AppJs_runAdds ops st0))
    with (Part000.currentData (ofAppJs (AppJs_runAdds ops st0))).
  rewrite AppJs_runAdds_sim. apply Part000_runAdds_unique.
  - exact Hnd.
  - rewrite map_map. erewrite map_ext; [exact Hclk|].
    intros [[[dateNow newDate] put] cat]. reflexivity.
  - intros op Hop. apply in_map_iff in Hop.
    destruct Hop as ([[[dateNow newDate] put] cat] & <- & Hin).
    apply (Hfresh _ Hin).
Qed.

(** * Further properties of the two files *)

(** ** Shape of the chart data *)

Lemma length_datesFrom (first stepDays : Z) (n : nat) :
  List.length (datesFrom first stepDays n) = n.
Proof. unfold datesFrom. rewrite length_map, length_seq. reflexivity. Qed.

Lemma pushAll_lengths (label : Z -> string) (bucket : Z -> list Entry) (dates : list Z) :
  let data := pushAll label bucket dates emptyChartData in
  List.length (labels data) = List.length dates
  /\ List.length (beer data) = List.length dates
  /\ List.length (wine data) = List.length dates
  /\ List.length (liquor data) = List.length dates
  /\ List.length (smoking data) = List.length dates.
Proof.
  cbv zeta. rewrite pushAll_spec. cbn [labels beer wine liquor smoking emptyChartData app].
  rewrite !length_map. repeat split.
Qed.

(** X1.  The five arrays handed to the chart always have the same length, in
    day mode and in week mode: one label and one count per category for every
    bucket. *)
Theorem chart_arrays_aligned (tz : Z) (es : list Entry) (windowStart windowEnd : Z) :
  (let d := aggregateByDay tz es windowStart windowEnd in
   List.length (beer d) = List.length (labels d)
   /\ List.length (wine d) = List.length (labels d)
   /\ List.length (liquor d) = List.length (labels d)
   /\ List.length (smoking d) = List.length (labels d))
  /\ (let w := aggregateByWeek tz es windowStart windowEnd in
      List.length (beer w) = List.length (labels w)
      /\ List.length (wine w) = List.length (labels w)
      /\ List.length (liquor w) = List.length (labels w)
      /\ List.length (smoking w) = List.length (labels w)).
Proof.
  split; cbv zeta.
  - rewrite aggregateByDay_spec.
    destruct (pushAll_lengths (fun c => formatChartLabel tz c false) (dayEntriesOf es)
                (datesFrom (setHours tz windowStart 0 0 0 0) 1
                   (loopFuel (setHours tz windowStart 0 0 0 0) windowEnd MS_PER_DAY)))
      as (Hl & Hb & Hw & Hq & Hs).
    cbv zeta in *. rewrite Hl, Hb, Hw, Hq, Hs. repeat split.
  - rewrite aggregateByWeek_spec.
    destruct (pushAll_lengths (fun c => formatChartLabel tz c true) (weekEntriesOf es)
                (datesFrom (weekLoopStart tz windowStart) 7
                   (loopFuel (weekLoopStart tz windowStart) windowEnd (7 * MS_PER_DAY))))
      as (Hl & Hb & Hw & Hq & Hs).
    cbv zeta in *. rewrite Hl, Hb, Hw, Hq, Hs. repeat split.
Qed.







(** X8.  In [part_000] the window never cuts the history at the front: the
    filter keeps every stored event that is not later than the window end. *)
Theorem Part000_window_keeps_oldest (tz : Z) (es : list Entry) (period now : Z) :
  let pass := Part000.updateChart tz es period now in
  filteredEntries pass = filter (fun e => timestamp e <=? endDate pass) es.
Proof.
  cbv zeta. rewrite Part000_updateChart_endDate.
  unfold Part000.updateChart.
  destruct es as [|e0 es'].
  - rewrite Part000_dateRange_empty. reflexivity.
  - destruct (Part000_dateRange_nonempty tz (e0 :: es') period now) as (m & Hin & Hmin & Hr);
      [discriminate|].
    rewrite Hr. cbn [filteredEntries snd]. unfold filterRange.
    apply filter_ext_in. intros e He.
    pose proof (Hmin e He). pose proof (setHours_midnight_le tz (timestamp m)).
    destruct (Z.leb_spec (setHours tz (timestamp m) 0 0 0 0) (timestamp e)); [reflexivity|lia].
Qed.

(** ** Week mode: which events the buckets count *)

Lemma list_sum_index_hit (j : Z) (n : nat) :
  list_sum (map (fun k => if j =? Z.of_nat k then 1%nat else O) (seq 0 n))
  = if (0 <=? j) && (j <? Z.of_nat n) then 1%nat else O.
Proof.
  destruct (Z.leb_spec 0 j) as [H0|H0]; destruct (Z.ltb_spec j (Z.of_nat n)) as [Hn|Hn];
    cbn [andb].
  - pose proof (list_sum_one_hit 0 j n 0) as H. cbn [Z.add] in H.
    erewrite map_ext; [apply H; lia|]. intros k. reflexivity.
  - rewrite (map_ext_in _ (fun _ => O)); [apply list_sum_map_zero|].
    intros k Hk. apply in_seq in Hk. destruct (Z.eqb_spec j (Z.of_nat k)); [lia|reflexivity].
  - rewrite (map_ext_in _ (fun _ => O)); [apply list_sum_map_zero|].
    intros k Hk. destruct (Z.eqb_spec j (Z.of_nat k)); [lia|reflexivity].
  - rewrite (map_ext_in _ (fun _ => O)); [apply list_sum_map_zero|].
    intros k Hk. destruct (Z.eqb_spec j (Z.of_nat k)); [lia|reflexivity].
Qed.

(** Position of an instant in the week that starts at the Sunday midnight
    [sunday]: its weekday and its time of day. *)
Lemma week_offset (tz sunday t : Z) :
  getDay tz sunday = 0 -> localTimeOfDay tz sunday = 0 ->
  (t - sunday) mod (7 * MS_PER_DAY) = getDay tz t * MS_PER_DAY + localTimeOfDay tz t.
Proof.
  unfold getDay, localTimeOfDay, localDay, MS_PER_DAY. intros Hg H0.
  pose proof (Z.div_mod (t + tz) 86400000 ltac:(lia)) as Et.
  pose proof (Z.mod_pos_bound (t + tz) 86400000 ltac:(lia)) as Bt.
  pose proof (Z.div_mod (sunday + tz) 86400000 ltac:(lia)) as Es.
  set (Lt := (t + tz) / 86400000) in *. set (Ls := (sunday + tz) / 86400000) in *.
  pose proof (Z.div_mod (Lt + 4) 7 ltac:(lia)) as Egt.
  pose proof (Z.mod_pos_bound (Lt + 4) 7 ltac:(lia)) as Bgt.
  pose proof (Z.div_mod (Ls + 4) 7 ltac:(lia)) as Egs.
  symmetry. apply (Z.mod_unique _ _ ((Lt + 4) / 7 - (Ls + 4) / 7)); lia.
Qed.

Lemma week_hits (tz sunday t : Z) (n : nat) :
  getDay tz sunday = 0 -> localTimeOfDay tz sunday = 0 ->
  list_sum (map (fun k => if (addDays sunday (7 * Z.of_nat k) <=? t)
                             && (t <=? addDays (addDays sunday (7 * Z.of_nat k)) 6)
                          then 1%nat else O) (seq 0 n))
  = if (sunday <=? t) && (t <? addDays sunday (7 * Z.of_nat n))
       && negb ((getDay tz t =? 6) && negb (localTimeOfDay tz t =? 0))
    then 1%nat else O.
Proof.
  intros Hg H0.
  pose proof (week_offset tz sunday t Hg H0) as Hr.
  pose proof (getDay_bound tz t) as Bg. pose proof (localTimeOfDay_bound tz t) as Bt.
  pose proof (Z.div_mod (t - sunday) (7 * MS_PER_DAY) ltac:(unfold MS_PER_DAY; lia)) as Ed.
  set (j := (t - sunday) / (7 * MS_PER_DAY)) in *.
  set (late := (getDay tz t =? 6) && negb (localTimeOfDay tz t =? 0)).
  assert (Hlate : late = negb ((t - sunday) mod (7 * MS_PER_DAY) <=? 6 * MS_PER_DAY)).
  { unfold late. rewrite Hr. unfold MS_PER_DAY in *.
    destruct (Z.eqb_spec (getDay tz t) 6), (Z.eqb_spec (localTimeOfDay tz t) 0),
      (Z.leb_spec (getDay tz t * 86400000 + localTimeOfDay tz t) (6 * 86400000));
      cbn [andb negb]; try reflexivity; lia. }
  rewrite (map_ext _ (fun k => if j =? Z.of_nat k then (if late then O else 1%nat) else O)).
  2:{ intros k. rewrite Hlate. unfold addDays, MS_PER_DAY in *.
      destruct (Z.eqb_spec j (Z.of_nat k)),
        (Z.leb_spec (sunday + 7 * Z.of_nat k * 86400000) t),
        (Z.leb_spec t (sunday + 7 * Z.of_nat k * 86400000 + 6 * 86400000)),
        (Z.leb_spec ((t - sunday) mod (7 * 86400000)) (6 * 86400000));
        cbn [andb negb]; try reflexivity;
        pose proof (Z.mod_pos_bound (t - sunday) (7 * 86400000) ltac:(lia)); lia. }
  assert (Hrange : (sunday <=? t) && (t <? addDays sunday (7 * Z.of_nat n))
                   = (0 <=? j) && (j <? Z.of_nat n)).
  { unfold addDays, MS_PER_DAY in *.
    pose proof (Z.mod_pos_bound (t - sunday) (7 * 86400000) ltac:(lia)).
    destruct (Z.leb_spec sunday t), (Z.ltb_spec t (sunday + 7 * Z.of_nat n * 86400000)),
      (Z.leb_spec 0 j), (Z.ltb_spec j (Z.of_nat n)); cbn [andb]; try reflexivity; lia. }
  rewrite Hrange. destruct late; cbn [negb].
  - rewrite andb_false_r.
    rewrite (map_ext _ (fun _ => O)); [apply list_sum_map_zero|].
    intros k. destruct (j =? Z.of_nat k); reflexivity.
  - rewrite andb_true_r. apply list_sum_index_hit.
Qed.

Lemma countIn_cons (c : string) (e : Entry) (es : list Entry) (lo hi : Z) :
  countIn c (e :: es) lo hi
  = ((if (category e =? c)%string
      then (if ((lo <=? timestamp e) && (timestamp e <=? hi))%Z then 1 else 0)
      else 0)
     + countIn c es lo hi)%nat.
Proof.
  unfold countIn. cbn [filter].
  destruct (category e =? c)%string, (lo <=? timestamp e), (timestamp e <=? hi); reflexivity.
Qed.

(** The week buckets that start at a Sunday midnight count, for every
    category, the events from that midnight up to the bucket after the last
    one, except those on a Saturday after midnight; each of them once. *)
Lemma week_buckets_count (tz : Z) (c : string) (es : list Entry) (sunday : Z) (n : nat) :
  getDay tz sunday = 0 -> localTimeOfDay tz sunday = 0 ->
  list_sum (map (fun s => countIn c es s (addDays s 6)) (datesFrom sunday 7 n))
  = countCategory c
      (filter (fun e => (sunday <=? timestamp e)
                        && (timestamp e <? addDays sunday (7 * Z.of_nat n))
                        && negb (lateSaturday tz e)) es).
Proof.
  intros Hg H0. unfold datesFrom. rewrite map_map.
  induction es as [|e es IH].
  - cbn [filter]. unfold countCategory, countIn. cbn [filter List.length].
    apply list_sum_map_zero.
  - erewrite map_ext by (intros k; apply countIn_cons).
    rewrite list_sum_map_add, IH. cbn [filter].
    pose proof (week_hits tz sunday (timestamp e) n Hg H0) as Hh.
    fold (lateSaturday tz e) in Hh.
    set (kept := (sunday <=? timestamp e)
                 && (timestamp e <? addDays sunday (7 * Z.of_nat n))
                 && negb (lateSaturday tz e)) in *.
    match goal with
    | |- (list_sum (map ?f _) + _)%nat = _ =>
        assert (Hsum : list_sum (map f (seq 0 n))
                       = if (category e =? c)%string
                         then (if kept then 1%nat else O) else O)
    end.
    { destruct (category e =? c)%string; [exact Hh|apply list_sum_map_zero]. }
    rewrite Hsum. destruct kept; [rewrite countCategory_cons|];
      destruct (category e =? c)%string; reflexivity.
Qed.

Lemma countCategory_filter_le (c : string) (p : Entry -> bool) (es : list Entry) :
  (countCategory c (filter p es) <= countCategory c es)%nat.
Proof.
  induction es as [|e es IH]; [apply Nat.le_refl|]. cbn [filter].
  destruct (p e); rewrite ?countCategory_cons; lia.
Qed.

Lemma aggregateByWeek_sums (tz : Z) (es : list Entry) (windowStart windowEnd : Z) (c : string) :
  list_sum (map (fun s => countCategory c (weekEntriesOf es s))
                (datesFrom (weekLoopStart tz windowStart) 7
                   (loopFuel (weekLoopStart tz windowStart) windowEnd (7 * MS_PER_DAY))))
  = countCategory c
      (filter (fun e => (weekLoopStart tz windowStart <=? timestamp e)
                        && (timestamp e <? addDays (weekLoopStart tz windowStart)
                                             (7 * Z.of_nat (loopFuel (weekLoopStart tz windowStart)
                                                              windowEnd (7 * MS_PER_DAY))))
                        && negb (lateSaturday tz e)) es).
Proof.
  erewrite map_ext by (intros s; apply countCategory_weekEntriesOf).
  apply week_buckets_count; [apply weekLoopStart_sunday|apply weekLoopStart_midnight].
Qed.

(** X4.  Week mode never counts an event twice: for every window and every
    event list, the buckets of a category add up to at most the number of
    events of that category. *)
Theorem aggregateByWeek_never_counts_twice (tz : Z) (es : list Entry)
        (windowStart windowEnd : Z) :
  let data := aggregateByWeek tz es windowStart windowEnd in
  (list_sum (beer data) <= countCategory "beer" es)%nat
  /\ (list_sum (wine data) <= countCategory "wine" es)%nat
  /\ (list_sum (liquor data) <= countCategory "liquor" es)%nat
  /\ (list_sum (smoking data) <= countCategory "smoking" es)%nat.
Proof.
  cbv zeta. rewrite aggregateByWeek_spec, pushAll_spec.
  cbn [beer wine liquor smoking emptyChartData app].
  rewrite !aggregateByWeek_sums. repeat split; apply countCategory_filter_le.
Qed.

Lemma aggregateByWeek_window_sums (tz : Z) (es : list Entry) (windowStart windowEnd : Z)
      (c : string) :
  (forall e, In e es -> windowStart <= timestamp e <= windowEnd) ->
  list_sum (map (fun s => countCategory c (weekEntriesOf es s))
                (datesFrom (weekLoopStart tz windowStart) 7
                   (loopFuel (weekLoopStart tz windowStart) windowEnd (7 * MS_PER_DAY))))
  = countCategory c (filter (fun e => negb (lateSaturday tz e)) es).
Proof.
  intros Hin. rewrite aggregateByWeek_sums. f_equal. apply filter_ext_in. intros e He.
  destruct (Hin e He) as [Hlo Hhi].
  pose proof (weekLoopStart_on_or_before tz windowStart) as [Hs _].
  pose proof (loopFuel_exit (weekLoopStart tz windowStart) windowEnd 7 ltac:(lia)) as Hex.
  destruct (Z.leb_spec (weekLoopStart tz windowStart) (timestamp e)); [|lia].
  destruct (Z.ltb_spec (timestamp e)
              (addDays (weekLoopStart tz windowStart)
                 (7 * Z.of_nat (loopFuel (weekLoopStart tz windowStart) windowEnd
                                  (7 * MS_PER_DAY))))); [reflexivity|lia].
Qed.

(** X5.  With a period above 30 days, in both files and in every zone, the week
    buckets of one pass of [updateChart] add up, category by category, to the
    number of events of the window that do not fall on a Saturday after
    midnight. *)
Theorem week_mode_counts_all_but_late_saturdays (tz : Z) (es : list Entry) (period now : Z) :
  30 < period ->
  forall pass,
    pass = Part000.updateChart tz es period now \/ pass = AppJs.updateChart tz es period now ->
    let counted := filter (fun e => negb (lateSaturday tz e)) (filteredEntries pass) in
    list_sum (beer (aggregatedData pass)) = countCategory "beer" counted
    /\ list_sum (wine (aggregatedData pass)) = countCategory "wine" counted
    /\ list_sum (liquor (aggregatedData pass)) = countCategory "liquor" counted
    /\ list_sum (smoking (aggregatedData pass)) = countCategory "smoking" counted.
Proof.
  intros Hp pass Hpass.
  assert (Hshape : exists windowStart windowEnd,
             filteredEntries pass = filterRange es windowStart windowEnd
             /\ aggregatedData pass
                = aggregateByWeek tz (filterRange es windowStart windowEnd) windowStart windowEnd).
  { destruct Hpass as [-> | ->].
    - unfold Part000.updateChart.
      destruct (Part000.dateRange tz es period now) as [windowStart windowEnd].
      exists windowStart, windowEnd. cbn [filteredEntries aggregatedData].
      destruct (Z.leb_spec period 30); [lia|]. split; reflexivity.
    - unfold AppJs.updateChart. eexists _, _. cbn [filteredEntries aggregatedData].
      destruct (Z.leb_spec period 30); [lia|]. split; reflexivity. }
  destruct Hshape as (windowStart & windowEnd & -> & ->). cbv zeta.
  rewrite aggregateByWeek_spec, pushAll_spec.
  cbn [beer wine liquor smoking emptyChartData app].
  repeat split; apply aggregateByWeek_window_sums; intros e He;
    apply (filterRange_In es windowStart windowEnd e He).
Qed.

Lemma week_mode_counts_all_but_late_saturdays_witness :
  list_sum (wine (aggregatedData
     (Part000.updateChart 0 [mkEntry "1704535200000" 1704535200000 "wine"] 90 1704888000000)))
  = countCategory "wine"
      (filter (fun e => negb (lateSaturday 0 e))
         (filteredEntries
            (Part000.updateChart 0 [mkEntry "1704535200000" 1704535200000 "wine"]
               90 1704888000000))).
Proof.
  assert (Hp : 30 < 90) by lia.
  exact (proj1 (proj2 (week_mode_counts_all_but_late_saturdays 0
                         [mkEntry "1704535200000" 1704535200000 "wine"] 90 1704888000000 Hp
                         _ (or_introl eq_refl)))).
Defined.

(** ** The table against the chart *)

(** X10.  For a period of at most 30 days the table and the chart of [part_000]
    show the same numbers: there is one row candidate per chart bucket, with
    the bucket's date and its four counts; the table lists, last day first,
    the candidates whose total (the sum of the four counts) is positive. *)
Theorem Part000_table_matches_chart (tz : Z) (es : list Entry) (period now : Z) :
  period <= 30 ->
  let pass := Part000.updateChart tz es period now in
  exists candidates : list Part000.DayRow,
    tableRows (Part000.renderTableView tz es period now)
    = rev (filter (fun r => (0 <? Part000.row_total r)%nat) candidates)
    /\ map (fun r => shortDate tz (Part000.row_date r)) candidates = labels (aggregatedData pass)
    /\ map Part000.row_beer candidates = beer (aggregatedData pass)
    /\ map Part000.row_wine candidates = wine (aggregatedData pass)
    /\ map Part000.row_liquor candidates = liquor (aggregatedData pass)
    /\ map Part000.row_smoking candidates = smoking (aggregatedData pass)
    /\ Forall (fun r => Part000.row_total r
                        = (Part000.row_beer r + Part000.row_wine r
                           + Part000.row_liquor r + Part000.row_smoking r)%nat) candidates.
Proof.
  intros Hp. cbv zeta. rewrite renderTableView_rows. cbv zeta.
  unfold Part000.updateChart.
  destruct (Part000.dateRange tz es period now) as [windowStart windowEnd]. cbn [fst snd].
  destruct (Z.leb_spec period 30) as [_|Hgt]; [|lia].
  cbn [aggregatedData]. rewrite aggregateByDay_spec, pushAll_spec.
  cbn [labels beer wine liquor smoking emptyChartData app].
  set (fes := filterRange es windowStart windowEnd).
  set (dates := datesFrom (setHours tz windowStart 0 0 0 0) 1
                  (loopFuel (setHours tz windowStart 0 0 0 0) windowEnd MS_PER_DAY)).
  exists (map (rowOf fes) dates).
  split; [reflexivity|].
  rewrite !map_map. cbn [rowOf Part000.row_date Part000.row_beer Part000.row_wine
                          Part000.row_liquor Part000.row_smoking].
  repeat split.
  apply Forall_forall. intros r Hr. apply in_map_iff in Hr.
  destruct Hr as (d & <- & _). reflexivity.
Qed.

Lemma Part000_table_matches_chart_witness :
  exists candidates : list Part000.DayRow,
    tableRows (Part000.renderTableView 0 [mkEntry "a" 1704243600000 "beer"] 7 1704888000000)
    = rev (filter (fun r => (0 <? Part000.row_total r)%nat) candidates)
    /\ map Part000.row_beer candidates
       = beer (aggregatedData
                 (Part000.updateChart 0 [mkEntry "a" 1704243600000 "beer"] 7 1704888000000)).
Proof.
  destruct (Part000_table_matches_chart 0 [mkEntry "a" 1704243600000 "beer"] 7 1704888000000)
    as (candidates & Hrows & _ & Hbeer & _).
  - lia.
  - exists candidates. split; assumption.
Defined.

(** ** The log *)

Lemma insertNewestFirst_perm (e : Entry) (l : list Entry) :
  Permutation (e :: l) (insertNewestFirst e l).
Proof.
  induction l as [|x l IH]; cbn [insertNewestFirst]; [apply Permutation_refl|].
  destruct (timestamp x <=? timestamp e); [apply Permutation_refl|].
  eapply Permutation_trans; [apply perm_swap|]. apply perm_skip. exact IH.
Qed.

Lemma sortNewestFirst_perm (l : list Entry) : Permutation l (sortNewestFirst l).
Proof.
  induction l as [|e l IH]; cbn [sortNewestFirst]; [apply Permutation_refl|].
  eapply Permutation_trans; [apply perm_skip, IH|]. apply insertNewestFirst_perm.
Qed.

Lemma insertNewestFirst_sorted (e : Entry) (l : list Entry) :
  StronglySorted notOlder l -> StronglySorted notOlder (insertNewestFirst e l).
Proof.
  induction l as [|x l IH]; intros Hs; cbn [insertNewestFirst].
  - repeat constructor.
  - destruct (Z.leb_spec (timestamp x) (timestamp e)) as [Hle|Hgt].
    + constructor; [exact Hs|].
      inversion Hs as [|? ? _ Hall]; subst.
      constructor; [exact Hle|].
      rewrite Forall_forall in *. intros z Hz. specialize (Hall z Hz).
      unfold notOlder in *. lia.
    + inversion Hs as [|? ? Hs' Hall]; subst.
      constructor; [apply IH; exact Hs'|].
      rewrite Forall_forall in *. intros z Hz.
      apply (Permutation_in _ (Permutation_sym (insertNewestFirst_perm e l))) in Hz.
      destruct Hz as [<-|Hz]; [unfold notOlder; lia|apply Hall; exact Hz].
Qed.

Lemma sortNewestFirst_sorted (l : list Entry) : StronglySorted notOlder (sortNewestFirst l).
Proof.
  induction l as [|e l IH]; cbn [sortNewestFirst]; [constructor|].
  apply insertNewestFirst_sorted; exact IH.
Qed.

Lemma insertNewestFirst_stable (t : Z) (e : Entry) (l : list Entry) :
  filter (fun x => timestamp x =? t) (insertNewestFirst e l)
  = filter (fun x => timestamp x =? t) (e :: l).
Proof.
  induction l as [|x l IH]; [reflexivity|]. cbn [insertNewestFirst].
  destruct (Z.leb_spec (timestamp x) (timestamp e)) as [Hle|Hgt]; [reflexivity|].
  cbn [filter] in *. rewrite IH.
  destruct (Z.eqb_spec (timestamp x) t), (Z.eqb_spec (timestamp e) t); try reflexivity; lia.
Qed.

Lemma sortNewestFirst_stable (t : Z) (l : list Entry) :
  filter (fun x => timestamp x =? t) (sortNewestFirst l)
  = filter (fun x => timestamp x =? t) l.
Proof.
  induction l as [|e l IH]; [reflexivity|]. cbn [sortNewestFirst].
  rewrite insertNewestFirst_stable. cbn [filter]. rewrite IH. reflexivity.
Qed.

(** X11.  The log shows the "No entries yet" message exactly for the empty list.
    Otherwise it shows one item per stored entry, none dropped and none
    repeated, newest first; entries with the same timestamp stay in their
    stored order. *)
Theorem renderEntries_newest_first (tz : Z) (es : list Entry) :
  match renderEntries tz es with
  | None => es = []
  | Some items =>
      es <> []
      /\ exists sorted,
          items = map (itemOf tz) sorted
          /\ Permutation es sorted
          /\ StronglySorted notOlder sorted
          /\ forall t, filter (fun x => timestamp x =? t) sorted
                       = filter (fun x => timestamp x =? t) es
  end.
Proof.
  destruct es as [|e es]; [reflexivity|]. cbn [renderEntries].
  split; [discriminate|]. exists (sortNewestFirst (e :: es)).
  split; [reflexivity|]. split; [apply sortNewestFirst_perm|].
  split; [apply sortNewestFirst_sorted|]. intros t. apply sortNewestFirst_stable.
Qed.

(** ** Saving, adding and deleting *)

Lemma Part000_saveData_success (env : Part000.Env) (newEntries : list Entry)
      (st : Part000.State) :
  saveSucceeds env newEntries st ->
  let r := Part000.saveData env newEntries st in
  entries (Part000.currentData (fst r)) = newEntries
  /\ snd r = Returned
  /\ Part000.config (fst r) = Part000.config st
  /\ (exists msg, Part000.status (fst r) = Some (mkStatus msg "success"))
  /\ (Part000.isLocal st = true ->
      Part000.localData (fst r) = Some (Part000.currentData (fst r))
      /\ sha (Part000.currentData (fst r)) = sha (Part000.currentData st))
  /\ (Part000.isLocal st = false ->
      Part000.PUT env (putBody newEntries (sha (Part000.currentData st)))
      = PutOk (match sha (Part000.currentData (fst r)) with Some s => s | None => "" end)
      /\ sha (Part000.currentData (fst r)) <> None
      /\ Part000.localData (fst r) = Part000.localData st).
Proof.
  unfold saveSucceeds, Part000.saveData, Part000.saveDataLocal, putBody.
  destruct (Part000.isLocal st) eqn:Hl.
  - intros ->. cbn. repeat split; try discriminate. eexists; reflexivity.
  - intros [newSha Hput]. cbn. rewrite Hput. cbn.
    repeat split; try discriminate. eexists; reflexivity.
Qed.

Lemma filter_other_ids (i : string) (es : list Entry) :
  let es' := filter (fun e => negb (id e =? i)%string) es in
  ~ In i (ids es') /\ (forall e, In e es' <-> In e es /\ id e <> i).
Proof.
  cbv zeta. split.
  - unfold ids. intros H. apply in_map_iff in H. destruct H as (e & He & Hin).
    apply filter_In in Hin. destruct Hin as [_ Hb].
    rewrite He, String.eqb_refl in Hb. discriminate.
  - intros e. rewrite filter_In. split; intros [Hin Hb]; split; try exact Hin.
    + intros Heq. rewrite Heq, String.eqb_refl in Hb. discriminate.
    + destruct (String.eqb_spec (id e) i); [contradiction|reflexivity].
Qed.

Lemma filter_unique_id_length (i : string) (es : list Entry) :
  NoDup (ids es) -> In i (ids es) ->
  S (List.length (filter (fun e => negb (id e =? i)%string) es)) = List.length es.
Proof.
  induction es as [|e es IH]; intros Hnd Hin; [destruct Hin|].
  cbn [ids map] in Hnd. inversion Hnd as [|? ? Hnot Hnd']; subst.
  cbn [filter]. destruct (String.eqb_spec (id e) i) as [Heq|Hne]; cbn [negb List.length].
  - rewrite filter_absent_id; [reflexivity|]. rewrite <- Heq. exact Hnot.
  - f_equal. apply IH; [exact Hnd'|]. destruct Hin as [Hin|Hin]; [contradiction|exact Hin].
Qed.

(** X12.  A confirmed [deleteEntry] whose save goes through removes every stored
    event that carries the id and keeps all the others, in their order; when
    the ids of the store are pairwise distinct and the id is present, exactly
    one event goes. *)
Theorem deleteEntry_removes_the_id (env : Part000.Env) (i : string) (st : Part000.State) :
  let es := entries (Part000.currentData st) in
  saveSucceeds env (filter (fun e => negb (id e =? i)%string) es) st ->
  let es' := entries (Part000.currentData (fst (Part000.deleteEntry true env i st))) in
  es' = filter (fun e => negb (id e =? i)%string) es
  /\ ~ In i (ids es')
  /\ (forall e, In e es' <-> In e es /\ id e <> i)
  /\ (NoDup (ids es) -> In i (ids es) -> S (List.length es') = List.length es).
Proof.
  cbv zeta. intros Hok. unfold Part000.deleteEntry. cbn [negb].
  destruct (Part000_saveData_success env _ st Hok) as (-> & _).
  split; [reflexivity|].
  destruct (filter_other_ids i (entries (Part000.currentData st))) as [Hnot Hiff].
  split; [exact Hnot|]. split; [exact Hiff|]. apply filter_unique_id_length.
Qed.

Lemma deleteEntry_removes_the_id_witness :
  ~ In "7" (ids (entries (Part000.currentData (fst (Part000.deleteEntry true savesSucceed "7"
      (Part000.mkState (Part000.mkConfig "" "" "" "local")
         (mkData [mkEntry "7" 7 "beer"; mkEntry "8" 8 "wine"] None) None None)))))).
Proof.
  apply (deleteEntry_removes_the_id savesSucceed "7"
           (Part000.mkState (Part000.mkConfig "" "" "" "local")
              (mkData [mkEntry "7" 7 "beer"; mkEntry "8" 8 "wine"] None) None None)).
  reflexivity.
Defined.

Lemma Part000_addEntry_success (dateNow newDate : Z) (env : Part000.Env) (cat : string)
        (st : Part000.State) :
  let es := entries (Part000.currentData st) in
  Part000.isLocal st = true \/ Part000.isConfigured st = true ->
  saveSucceeds env (es ++ [newEntry dateNow newDate cat]) st ->
  let r := Part000.addEntry dateNow newDate env cat st in
  entries (Part000.currentData (fst r)) = (es ++ [newEntry dateNow newDate cat])%list
  /\ snd r = Returned
  /\ exists msg, Part000.status (fst r) = Some (mkStatus msg "success").
Proof.
  cbv zeta. intros Hallowed Hok. unfold Part000.addEntry.
  replace (negb (Part000.isLocal st) && negb (Part000.isConfigured st)) with false
    by (destruct Hallowed as [-> | ->]; [reflexivity|apply eq_sym, andb_false_r]).
  fold (newEntry dateNow newDate cat).
  destruct (Part000_saveData_success env _ st Hok) as (He & Hr & _ & Hs & _).
  repeat split; assumption.
Qed.

(** X13.  [addEntry] needs the credentials only in GitHub mode.  When it is
    allowed to run and its save goes through, the store is the old list with
    the new entry at the end: id from [Date.now()], timestamp from
    [new Date()], the category as passed. *)
Theorem addEntry_appends (dateNow newDate : Z) (env : Part000.Env) (cat : string)
        (st : Part000.State) :
  let es := entries (Part000.currentData st) in
  Part000.isLocal st = true \/ Part000.isConfigured st = true ->
  saveSucceeds env (es ++ [newEntry dateNow newDate cat]) st ->
  let r := Part000.addEntry dateNow newDate env cat st in
  entries (Part000.currentData (fst r)) = (es ++ [newEntry dateNow newDate cat])%list
  /\ snd r = Returned
  /\ exists msg, Part000.status (fst r) = Some (mkStatus msg "success").
Proof. apply Part000_addEntry_success. Qed.

Lemma addEntry_appends_witness :
  entries (Part000.currentData
             (fst (Part000.addEntry 1704535200000 1704535200001 savesSucceed "beer" localEmpty)))
  = [newEntry 1704535200000 1704535200001 "beer"].
Proof.
  apply (addEntry_appends 1704535200000 1704535200001 savesSucceed "beer" localEmpty).
  - left; reflexivity.
  - reflexivity.
Defined.

Lemma filter_appended_id (i : string) (e : Entry) (es : list Entry) :
  ~ In i (ids es) -> id e = i ->
  filter (fun x => negb (id x =? i)%string) (es ++ [e]) = es.
Proof.
  intros Hn He. rewrite filter_app, (filter_absent_id i es Hn). cbn [filter].
  rewrite He, String.eqb_refl. cbn [negb]. apply app_nil_r.
Qed.

(** X14.  Adding an entry under an id the store does not hold yet and deleting
    that id again gives back the list that was stored before, when both saves
    go through. *)
Theorem add_then_delete_restores (dateNow newDate : Z) (env1 env2 : Part000.Env)
        (cat : string) (st : Part000.State) :
  let es := entries (Part000.currentData st) in
  ~ In (toString dateNow) (ids es) ->
  Part000.isLocal st = true \/ Part000.isConfigured st = true ->
  saveSucceeds env1 (es ++ [newEntry dateNow newDate cat]) st ->
  let st1 := fst (Part000.addEntry dateNow newDate env1 cat st) in
  saveSucceeds env2 es st1 ->
  entries (Part000.currentData (fst (Part000.deleteEntry true env2 (toString dateNow) st1)))
  = es.
Proof.
  cbv zeta. intros Hfresh Hallowed Hok1 Hok2.
  destruct (Part000_addEntry_success dateNow newDate env1 cat st Hallowed Hok1) as (He & _).
  cbv zeta in He. unfold Part000.deleteEntry. cbn [negb]. rewrite He.
  rewrite (filter_appended_id (toString dateNow) (newEntry dateNow newDate cat) _ Hfresh eq_refl).
  destruct (Part000_saveData_success env2 _ _ Hok2) as (-> & _). reflexivity.
Qed.

Lemma add_then_delete_restores_witness :
  entries (Part000.currentData
    (fst (Part000.deleteEntry true savesSucceed (toString 1704535200000)
       (fst (Part000.addEntry 1704535200000 1704535200001 savesSucceed "beer" localEmpty)))))
  = entries (Part000.currentData localEmpty).
Proof.
  apply (add_then_delete_restores 1704535200000 1704535200001 savesSucceed savesSucceed
           "beer" localEmpty).
  - cbn. intros H. exact H.
  - left; reflexivity.
  - reflexivity.
  - reflexivity.
Defined.

(** X15.  Optimistic concurrency in GitHub mode: a save that went through with
    revision [s] makes the next save send [s] as the [sha] of its body; a
    store that never received a revision sends none. *)
Theorem next_save_sends_last_revision (env : Part000.Env) (es1 es2 : list Entry)
        (st : Part000.State) (s : string) :
  Part000.isLocal st = false ->
  Part000.PUT env (putBody es1 (sha (Part000.currentData st))) = PutOk s ->
  s <> "" ->
  let st1 := fst (Part000.saveData env es1 st) in
  putBody es2 (sha (Part000.currentData st1)) = {| body_entries := es2; body_sha := Some s |}
  /\ (sha (Part000.currentData st) = None ->
      putBody es1 (sha (Part000.currentData st)) = {| body_entries := es1; body_sha := None |}).
Proof.
  intros Hl Hput Hs. cbv zeta. unfold Part000.saveData. rewrite Hl.
  unfold putBody in *. cbn. rewrite Hput. cbn.
  destruct (String.eqb_spec s ""); [contradiction|].
  split; [reflexivity|]. intros ->. reflexivity.
Qed.

Lemma next_save_sends_last_revision_witness :
  putBody [] (sha (Part000.currentData
                     (fst (Part000.saveData savesSucceed [mkEntry "7" 7 "beer"] githubEmpty))))
  = {| body_entries := []; body_sha := Some "def" |}.
Proof.
  apply (next_save_sends_last_revision savesSucceed [mkEntry "7" 7 "beer"] [] githubEmpty "def").
  - reflexivity.
  - reflexivity.
  - discriminate.
Defined.

(** ** Local storage *)

Lemma loadDataLocal_stored (st : Part000.State) :
  Part000.localData st = Some (Part000.currentData st) -> Part000.loadDataLocal st = st.
Proof.
  unfold Part000.loadDataLocal. intros ->. destruct st; reflexivity.
Qed.

Lemma Part000_addEntry_local (dateNow newDate : Z) (env : Part000.Env) (cat : string)
      (st : Part000.State) :
  Part000.isLocal st = true -> Part000.setItem env = Stored ->
  let st1 := fst (Part000.addEntry dateNow newDate env cat st) in
  entries (Part000.currentData st1)
    = (entries (Part000.currentData st) ++ [newEntry dateNow newDate cat])%list
  /\ Part000.isLocal st1 = true
  /\ Part000.localData st1 = Some (Part000.currentData st1).
Proof.
  intros Hl Hs. cbv zeta.
  unfold Part000.addEntry. rewrite Hl. cbn [negb andb].
  unfold Part000.saveData. rewrite Hl.
  unfold Part000.saveDataLocal. rewrite Hs. cbn [fst].
  split; [reflexivity|]. split; [exact Hl|reflexivity].
Qed.

Lemma Part000_runAdds_cons (op : Part000.AddOp) (ops : list Part000.AddOp)
      (st : Part000.State) :
  Part000.runAdds (op :: ops) st
  = Part000.runAdds ops
      (fst (Part000.addEntry (Part000.op_dateNow op) (Part000.op_newDate op)
              (Part000.op_env op) (Part000.op_category op) st)).
Proof. reflexivity. Qed.

Lemma Part000_runAdds_local (ops : list Part000.AddOp) (st : Part000.State) :
  Part000.isLocal st = true ->
  (forall op, In op ops -> Part000.setItem (Part000.op_env op) = Stored) ->
  let st' := Part000.runAdds ops st in
  entries (Part000.currentData st')
    = (entries (Part000.currentData st) ++ map entryOfOp ops)%list
  /\ Part000.isLocal st' = true
  /\ (Part000.localData st = Some (Part000.currentData st) \/ ops <> [] ->
      Part000.localData st' = Some (Part000.currentData st')).
Proof.
  revert st. induction ops as [|op ops IH]; intros st Hl Hs; cbv zeta.
  - cbn. rewrite app_nil_r. split; [reflexivity|]. split; [exact Hl|].
    intros [H|H]; [exact H|contradiction].
  - rewrite Part000_runAdds_cons.
    destruct (Part000_addEntry_local (Part000.op_dateNow op) (Part000.op_newDate op)
                (Part000.op_env op) (Part000.op_category op) st Hl
                (Hs op (or_introl eq_refl))) as (He & Hl1 & Hst1).
    cbv zeta in He, Hl1, Hst1.
    destruct (IH _ Hl1 (fun op' H => Hs op' (or_intror H))) as (He' & Hl' & Hst').
    cbv zeta in He', Hl', Hst'.
    split; [|split; [exact Hl'|intros _; apply Hst'; left; exact Hst1]].
    rewrite He', He, <- app_assoc. reflexivity.
Qed.

(** X16.  In local mode, while local storage accepts the writes, every press of a
    category button appends its entry: after a run of presses the store is the
    old list followed by the new entries in the order of the presses, and what
    local storage holds is the store, so that a reload changes nothing. *)
Theorem local_adds_are_appended_and_stored (ops : list Part000.AddOp) (st : Part000.State) :
  Part000.isLocal st = true ->
  (forall op, In op ops -> Part000.setItem (Part000.op_env op) = Stored) ->
  ops <> [] ->
  let st' := Part000.runAdds ops st in
  entries (Part000.currentData st')
    = (entries (Part000.currentData st) ++ map entryOfOp ops)%list
  /\ Part000.localData st' = Some (Part000.currentData st')
  /\ forall GET env, Part000.loadData GET env st' = (st', Returned).
Proof.
  intros Hl Hs Hne. cbv zeta.
  destruct (Part000_runAdds_local ops st Hl Hs) as (He & Hl' & Hst).
  cbv zeta in He, Hl', Hst. specialize (Hst (or_intror Hne)).
  split; [exact He|]. split; [exact Hst|].
  intros GET env. unfold Part000.loadData. rewrite Hl'.
  rewrite (loadDataLocal_stored _ Hst). reflexivity.
Qed.

Lemma local_adds_are_appended_and_stored_witness :
  Part000.localData
    (Part000.runAdds [Part000.mkAddOp 1704535200000 1704535200000 savesSucceed "beer"] localEmpty)
  = Some (Part000.currentData
            (Part000.runAdds [Part000.mkAddOp 1704535200000 1704535200000 savesSucceed "beer"]
               localEmpty)).
Proof.
  apply (local_adds_are_appended_and_stored
           [Part000.mkAddOp 1704535200000 1704535200000 savesSucceed "beer"] localEmpty).
  - reflexivity.
  - intros op [<-|[]]. reflexivity.
  - discriminate.
Defined.

(** Cleared data does not come back: after a confirmed [clearLocalData] a
    reload from local storage gives the empty store without revision; a
    dismissed dialog leaves everything as it was. *)
Theorem clearLocalData_then_reload (st : Part000.State) :
  Part000.currentData (Part000.loadDataLocal (Part000.clearLocalData true st))
  = {| entries := []; sha := None |}
  /\ Part000.localData (Part000.clearLocalData true st) = None
  /\ entries (Part000.currentData (Part000.clearLocalData true st)) = []
  /\ Part000.clearLocalData false st = st.
Proof. repeat split. Qed.

(** ** Loading *)

Lemma AppJs_loadData_sim (GET : GetResult) (put : PutBody -> PutResult) (st : AppJs.State) :
  Part000.loadData GET (envOfAppJs put) (ofAppJs st)
  = ofAppJsResult (AppJs.loadData GET put st).
Proof.
  unfold Part000.loadData, AppJs.loadData.
  change (Part000.isLocal (ofAppJs st)) with false.
  change (Part000.isConfigured (ofAppJs st)) with (AppJs.isConfigured st).
  cbn [negb]. destruct (AppJs.isConfigured st); cbn [negb]; [|reflexivity].
  destruct GET as [contentEntries dataSha|msg]; [reflexivity|].
  destruct (includes "404" msg); [|reflexivity].
  apply (AppJs_saveData_sim put [] (AppJs.showStatus "Loading data..." "info" st)).
Qed.



(** ** The overview *)

Lemma countCategory_split (c : string) (p : Entry -> bool) (es : list Entry) :
  (countCategory c (filter (fun e => negb (p e)) es) + countCategory c (filter p es))%nat
  = countCategory c es.
Proof.
  induction es as [|e es IH]; [reflexivity|]. cbn [filter].
  destruct (p e); cbn [negb]; rewrite !countCategory_cons; lia.
Qed.

(** X18.  The weekday card and the weekend card split the events of the window:
    category by category, and in total, their numbers add up to those of the
    other cards. *)
Theorem Part000_overview_split (tz : Z) (es : list Entry) (period now : Z) :
  let o := Part000.renderOverview tz es period now in
  add4 (Part000.ov_weekdayStats o) (Part000.ov_weekendStats o) = Part000.ov_stats o
  /\ (Part000.ov_weekdayTotal o + Part000.ov_weekendTotal o)%nat = Part000.ov_total o.
Proof.
  cbv zeta. unfold Part000.renderOverview.
  destruct (Part000.dateRange tz es period now) as [windowStart windowEnd].
  destruct (Part000.renderOverview_loop _ _ _ _ _ _) as [weekdayCount weekendCount].
  cbn [Part000.ov_stats Part000.ov_weekdayStats Part000.ov_weekendStats Part000.ov_total
       Part000.ov_weekdayTotal Part000.ov_weekendTotal].
  set (fes := filterRange es windowStart windowEnd).
  set (we := fun entry : Entry => (getDay tz (timestamp entry) =? 0)
                                  || (getDay tz (timestamp entry) =? 6)).
  cbv zeta.
  assert (Hwd : filter (fun entry => negb (getDay tz (timestamp entry) =? 0)
                                     && negb (getDay tz (timestamp entry) =? 6)) fes
                = filter (fun e => negb (we e)) fes).
  { apply filter_ext. intros e. unfold we. symmetry. apply negb_orb. }
  rewrite Hwd. fold we.
  unfold countStats, add4, Part000.sum4.
  pose proof (countCategory_split "beer" we fes).
  pose proof (countCategory_split "wine" we fes).
  pose proof (countCategory_split "liquor" we fes).
  pose proof (countCategory_split "smoking" we fes).
  split; [repeat f_equal; assumption|lia].
Qed.

Lemma renderOverview_loop_counts (tz windowEnd : Z) (fuel : nat) (current : Z)
      (weekdayCount weekendCount : nat) :
  let dates := loopDates fuel current windowEnd 1 in
  Part000.renderOverview_loop tz fuel windowEnd current weekdayCount weekendCount
  = ((weekdayCount + List.length (filter (fun d => negb (isWeekend tz d)) dates))%nat,
     (weekendCount + List.length (filter (isWeekend tz) dates))%nat).
Proof.
  cbv zeta. revert current weekdayCount weekendCount.
  induction fuel as [|fuel IH]; intros current weekdayCount weekendCount;
    cbn [Part000.renderOverview_loop loopDates].
  - cbn. rewrite !Nat.add_0_r. reflexivity.
  - destruct (current <=? windowEnd); [|cbn; rewrite !Nat.add_0_r; reflexivity].
    cbv zeta.
    change ((getDay tz current =? 0) || (getDay tz current =? 6)) with (isWeekend tz current).
    cbn [filter]. destruct (isWeekend tz current); cbn [negb];
      rewrite IH; cbn [List.length]; f_equal; lia.
Qed.

Lemma length_filter_split {A : Type} (p : A -> bool) (l : list A) :
  (List.length (filter (fun x => negb (p x)) l) + List.length (filter p l))%nat
  = List.length l.
Proof.
  induction l as [|x l IH]; [reflexivity|]. cbn [filter].
  destruct (p x); cbn [negb List.length]; lia.
Qed.

(** The day counts of the weekday and weekend cards: together they count
    the days the loop visits, one per day from the window start while
    [<= window.end]; the weekend card counts those that [getDay] puts on a
    Saturday or a Sunday. *)
Lemma Part000_overview_day_counts (tz : Z) (es : list Entry) (period now : Z) :
  let o := Part000.renderOverview tz es period now in
  let windowStart := fst (Part000.dateRange tz es period now) in
  let windowEnd := snd (Part000.dateRange tz es period now) in
  let dates := datesFrom windowStart 1 (loopFuel windowStart windowEnd MS_PER_DAY) in
  Part000.ov_weekendCount o = List.length (filter (isWeekend tz) dates)
  /\ (Part000.ov_weekdayCount o + Part000.ov_weekendCount o)%nat
     = loopFuel windowStart windowEnd MS_PER_DAY
  /\ Part000.ov_days o = ceilDiv (windowEnd - windowStart) MS_PER_DAY + 1.
Proof.
  cbv zeta. unfold Part000.renderOverview.
  destruct (Part000.dateRange tz es period now) as [windowStart windowEnd]. cbn [fst snd].
  rewrite renderOverview_loop_counts. cbv zeta.
  cbn [Part000.ov_weekendCount Part000.ov_weekdayCount Part000.ov_days].
  replace MS_PER_DAY with (1 * MS_PER_DAY) at 1 3 4 by lia.
  rewrite loopDates_loopFuel by lia.
  replace (1 * MS_PER_DAY) with MS_PER_DAY by lia.
  split; [reflexivity|]. split; [|reflexivity].
  cbn [Nat.add]. rewrite length_filter_split. apply length_datesFrom.
Qed.

(** X19.  In a zone without daylight saving (a fixed offset from UTC, where
    every local day has 24 hours): "days tracked" against the days the weekday
    and weekend cards count, for a non-empty list whose earliest event is not
    after today.  Once the
    period that starts at the first event's day has ended before the end of
    today, both are the period.  Before that, while the window ends with
    today, "days tracked" is one more than the days the two cards count. *)
Theorem Part000_overview_days_tracked (tz : Z) (es : list Entry) (period now : Z) :
  1 <= period ->
  (exists e, In e es /\ timestamp e <= setHours tz now 23 59 59 999) ->
  let o := Part000.renderOverview tz es period now in
  let counted := Z.of_nat (Part000.ov_weekdayCount o + Part000.ov_weekendCount o) in
  let windowStart := fst (Part000.dateRange tz es period now) in
  (addDays windowStart (period - 1) < setHours tz now 23 59 59 999 ->
   Part000.ov_days o = period /\ counted = period)
  /\ (setHours tz now 23 59 59 999 <= addDays windowStart (period - 1) ->
      Part000.ov_days o = counted + 1 /\ 1 <= counted < period).
Proof.
  intros Hp (e & He & Hle). cbv zeta.
  destruct (Part000_overview_day_counts tz es period now) as (_ & Hc & Hd).
  cbv zeta in Hc, Hd. rewrite Hc, Hd. clear Hc Hd.
  assert (Hne : es <> []) by (intros ->; destruct He).
  destruct (Part000_dateRange_nonempty tz es period now Hne) as (m & Hin & Hmin & Hr).
  rewrite Hr. cbn [fst snd].
  pose proof (setHours_midnight_le tz (timestamp m)) as Hfm. pose proof (Hmin e He) as Hme.
  rewrite setHours_endOfDay in *.
  rewrite (setHours_midnight_localDay tz (timestamp m)) in *.
  rewrite (setHours_midnight_localDay tz now) in *.
  set (Lf := localDay tz (timestamp m)) in *. set (Ln := localDay tz now) in *.
  unfold loopFuel, ceilDiv, addDays, MS_PER_DAY in *.
  split; intros Hcase.
  - destruct (Z.ltb_spec (Lf * 86400000 - tz + (period - 1) * 86400000)
                (Ln * 86400000 - tz + 86400000 - 1)); [|lia].
    replace (Lf * 86400000 - tz + (period - 1) * 86400000 - (Lf * 86400000 - tz))
      with ((period - 1) * 86400000) by lia.
    replace (- ((period - 1) * 86400000)) with ((- (period - 1)) * 86400000) by lia.
    rewrite !Z.div_mul by lia. lia.
  - destruct (Z.ltb_spec (Lf * 86400000 - tz + (period - 1) * 86400000)
                (Ln * 86400000 - tz + 86400000 - 1)); [lia|].
    replace (Ln * 86400000 - tz + 86400000 - 1 - (Lf * 86400000 - tz))
      with ((Ln - Lf) * 86400000 + 86399999) by lia.
    assert (Hq : ((Ln - Lf) * 86400000 + 86399999) / 86400000 = Ln - Lf)
      by (Z.to_euclidean_division_equations; lia).
    assert (Hc : (- ((Ln - Lf) * 86400000 + 86399999)) / 86400000 = - (Ln - Lf) - 1)
      by (Z.to_euclidean_division_equations; lia).
    rewrite Hq, Hc. lia.
Qed.

Lemma Part000_overview_days_tracked_witness :
  Part000.ov_days (Part000.renderOverview 0 [mkEntry "a" 1704243600000 "beer"] 30 1704888000000)
  = Z.of_nat (Part000.ov_weekdayCount
                (Part000.renderOverview 0 [mkEntry "a" 1704243600000 "beer"] 30 1704888000000)
              + Part000.ov_weekendCount
                  (Part000.renderOverview 0 [mkEntry "a" 1704243600000 "beer"] 30 1704888000000))
    + 1.
Proof.
  apply (Part000_overview_days_tracked 0 [mkEntry "a" 1704243600000 "beer"] 30 1704888000000).
  - lia.
  - exists (mkEntry "a" 1704243600000 "beer"). split; [left; reflexivity|].
    vm_compute. discriminate.
  - vm_compute. discriminate.
Defined.

(** ** The date texts *)

Lemma civil_from_days_bounds (z : Z) :
  1 <= snd (fst (civil_from_days z)) <= 12 /\ 1 <= snd (civil_from_days z) <= 31.
Proof.
  unfold civil_from_days.
  remember ((z + 719468) / 146097) as era eqn:Eera.
  remember (z + 719468 - era * 146097) as doe eqn:Edoe.
  assert (Hdoe : 0 <= doe < 146097).
  { subst doe era. pose proof (Z.div_mod (z + 719468) 146097).
    pose proof (Z.mod_pos_bound (z + 719468) 146097). lia. }
  destruct (doe_split doe Hdoe) as [Hyoe Hdoy].
  remember ((doe - doe / 1460 + doe / 36524 - doe / 146096) / 365) as yoe eqn:Eyoe.
  remember (doe - (365 * yoe + yoe / 4 - yoe / 100)) as doy eqn:Edoy.
  clear Eyoe Eera Edoy Edoe.
  cbv zeta. cbn [fst snd].
  assert (Hmp : 0 <= (5 * doy + 2) / 153 < 12) by (Z.to_euclidean_division_equations; lia).
  split.
  - destruct (Z.ltb_spec ((5 * doy + 2) / 153) 10); lia.
  - Z.to_euclidean_division_equations; lia.
Qed.

Lemma month_name_in_table (tz t : Z) :
  In (nth (Z.to_nat (getMonth tz t)) months "undefined") months.
Proof.
  apply nth_In. unfold getMonth.
  pose proof (civil_from_days_bounds (localDay tz t)) as [Hm _].
  change (List.length months) with 12%nat. lia.
Qed.

Lemma getDate_bounds (tz t : Z) : 1 <= getDate tz t <= 31.
Proof. unfold getDate. apply civil_from_days_bounds. Qed.

(** X20.  The label of a bucket is always one of the twelve month names, a space
    and a day of the month between 1 and 31, whatever the date; it is the
    same text for both values of the [isWeek] flag. *)
Theorem formatChartLabel_shape (tz date : Z) :
  exists name, In name months
    /\ 1 <= getDate tz date <= 31
    /\ (forall isWeek : bool,
          formatChartLabel tz date isWeek = name ++ " " ++ toString (getDate tz date))
    /\ formatChartLabel tz date true = formatChartLabel tz date false.
Proof.
  exists (nth (Z.to_nat (getMonth tz date)) months "undefined").
  split; [apply month_name_in_table|]. split; [apply getDate_bounds|].
  split; [intros isWeek; destruct isWeek; reflexivity|reflexivity].
Qed.

Lemma getHours_bounds (tz t : Z) : 0 <= getHours tz t < 24.
Proof.
  unfold getHours. pose proof (localTimeOfDay_bound tz t) as H. unfold MS_PER_DAY in H.
  Z.to_euclidean_division_equations; lia.
Qed.

Lemma getMinutes_bounds (tz t : Z) : 0 <= getMinutes tz t < 60.
Proof. unfold getMinutes. Z.to_euclidean_division_equations; lia. Qed.

Lemma padStart2_two_digits (n : Z) :
  0 <= n < 100 -> String.length (padStart2 (toString n)) = 2%nat.
Proof.
  intros Hn.
  assert (Hall : forallb (fun k => Nat.eqb (String.length (padStart2 (toString (Z.of_nat k)))) 2)
                         (seq 0 100) = true) by (vm_compute; reflexivity).
  rewrite forallb_forall in Hall.
  specialize (Hall (Z.to_nat n)). rewrite Z2Nat.id in Hall by lia.
  apply Nat.eqb_eq, Hall, in_seq. lia.
Qed.

(** X21.  The date text of a log item: a month name of the table, the day of the
    month (1 to 31), the year, and the time as two characters for the hour, a
    colon and two characters for the minute. *)
Theorem formatDateTime_shape (tz date : Z) :
  exists name hh mm,
    In name months
    /\ 1 <= getDate tz date <= 31
    /\ String.length hh = 2%nat /\ String.length mm = 2%nat
    /\ formatDateTime tz date
       = name ++ " " ++ toString (getDate tz date) ++ ", "
         ++ toString (getFullYear tz date) ++ " " ++ hh ++ ":" ++ mm.
Proof.
  exists (nth (Z.to_nat (getMonth tz date)) months "undefined"),
         (padStart2 (toString (getHours tz date))),
         (padStart2 (toString (getMinutes tz date))).
  split; [apply month_name_in_table|]. split; [apply getDate_bounds|].
  split; [apply padStart2_two_digits; pose proof (getHours_bounds tz date); lia|].
  split; [apply padStart2_two_digits; pose proof (getMinutes_bounds tz date); lia|].
  reflexivity.
Qed.

(** ** Sample data *)

Lemma noDash_string_of_uint (d : Decimal.uint) :
  noDash (NilEmpty.string_of_uint d) = true.
Proof. induction d; cbn; try assumption; reflexivity. Qed.

Lemma noDash_toString_of_nat (j : nat) : noDash (toString (Z.of_nat j)) = true.
Proof.
  unfold toString, Z.to_int.
  destruct (Z.of_nat j) eqn:E; cbn; try apply noDash_string_of_uint; lia.
Qed.

Lemma noDash_app_dash (a b : string) : noDash (a ++ "-" ++ b) = false.
Proof.
  induction a as [|c a IH]; cbn in *; [reflexivity|]. rewrite IH. apply andb_false_r.
Qed.

Lemma app_dash_inj (a b d1 d2 : string) :
  noDash d1 = true -> noDash d2 = true ->
  a ++ "-" ++ d1 = b ++ "-" ++ d2 -> a = b /\ d1 = d2.
Proof.
  intros H1 H2. revert b. induction a as [|c a IH]; intros [|c' b] Heq; cbn in Heq.
  - injection Heq as Heq. split; [reflexivity|exact Heq].
  - injection Heq as _ Heq. rewrite Heq in H1.
    change (b ++ String "-" d2) with (b ++ "-" ++ d2) in H1.
    rewrite noDash_app_dash in H1. discriminate.
  - injection Heq as _ Heq. rewrite <- Heq in H2.
    change (a ++ String "-" d1) with (a ++ "-" ++ d1) in H2.
    rewrite noDash_app_dash in H2. discriminate.
  - injection Heq as Hc Heq. destruct (IH b Heq) as [-> ->]. subst. split; reflexivity.
Qed.

Lemma dummyId_inj (t1 t2 : Z) (j1 j2 : nat) :
  dummyId t1 j1 = dummyId t2 j2 -> t1 = t2 /\ j1 = j2.
Proof.
  unfold dummyId. intros H.
  apply app_dash_inj in H; try apply noDash_toString_of_nat.
  destruct H as [Ht Hj]. apply toString_inj in Ht, Hj. split; lia.
Qed.

Lemma setHours_same_day (tz t h m : Z) :
  0 <= h * 3600000 + m * 60000 < MS_PER_DAY ->
  localDay tz (setHours tz t h m 0 0) = localDay tz t.
Proof.
  intros H. unfold setHours, localDay, localTimeOfDay, MS_PER_DAY in *.
  pose proof (Z.div_mod (t + tz) 86400000 ltac:(lia)) as E.
  symmetry. apply (Z.div_unique _ _ _ (h * 3600000 + m * 60000)); lia.
Qed.

Lemma generateDummyData_day_unfold (tz : Z) (draws : list Part000.Draw) (j : nat) (date : Z)
      (es : list Entry) :
  Part000.generateDummyData_day tz draws j date es = (es ++ dummyDay tz draws j date)%list.
Proof.
  revert j date es. induction draws as [|d draws IH]; intros j date es;
    cbn [Part000.generateDummyData_day dummyDay].
  - rewrite app_nil_r. reflexivity.
  - rewrite IH, <- app_assoc. reflexivity.
Qed.

Lemma generateDummyData_days_unfold (tz today : Z) (random : nat -> list Part000.Draw)
      (count : nat) (es : list Entry) :
  Part000.generateDummyData_days tz today random count es
  = (es ++ dummyDays tz today random count)%list.
Proof.
  revert es. induction count as [|i IH]; intros es;
    cbn [Part000.generateDummyData_days dummyDays].
  - rewrite app_nil_r. reflexivity.
  - rewrite IH, generateDummyData_day_unfold, <- app_assoc. reflexivity.
Qed.

Lemma dummyDay_entries (tz : Z) (draws : list Part000.Draw) (j : nat) (date : Z) (e : Entry) :
  Forall validDraw draws -> In e (dummyDay tz draws j date) ->
  (exists k, (j <= k)%nat /\ id e = dummyId (timestamp e) k)
  /\ localDay tz (timestamp e) = localDay tz date
  /\ In (category e) Part000.categories.
Proof.
  revert j date. induction draws as [|d draws IH]; intros j date Hv Hin; [destruct Hin|].
  inversion Hv as [|? ? (Hc & Hh & Hm) Hv']; subst.
  assert (Hday : localDay tz (setHours tz date (Part000.draw_hour d) (Part000.draw_minute d) 0 0)
                 = localDay tz date)
    by (apply setHours_same_day; unfold MS_PER_DAY; lia).
  cbn [dummyDay] in Hin. destruct Hin as [<-|Hin].
  - cbn [id timestamp category]. split; [exists j; split; [lia|reflexivity]|].
    split; [exact Hday|]. apply nth_In. exact Hc.
  - destruct (IH (S j) _ Hv' Hin) as ((k & Hk & Hid) & Hd & Hcat).
    split; [exists k; split; [lia|exact Hid]|]. split; [rewrite Hd; exact Hday|exact Hcat].
Qed.

Lemma dummyDay_NoDup (tz : Z) (draws : list Part000.Draw) (j : nat) (date : Z) :
  Forall validDraw draws -> NoDup (ids (dummyDay tz draws j date)).
Proof.
  revert j date. induction draws as [|d draws IH]; intros j date Hv; [constructor|].
  inversion Hv as [|? ? _ Hv']; subst. cbn [dummyDay ids map id].
  constructor; [|apply IH; exact Hv'].
  intros Hin. apply in_map_iff in Hin. destruct Hin as (e & He & Hin).
  destruct (dummyDay_entries tz draws (S j) _ e Hv' Hin) as ((k & Hk & Hid) & _).
  rewrite Hid in He. apply dummyId_inj in He. lia.
Qed.

Lemma dummyDays_entries (tz today : Z) (random : nat -> list Part000.Draw) (count : nat)
      (e : Entry) :
  validRandom random -> In e (dummyDays tz today random count) ->
  (exists k, id e = dummyId (timestamp e) k)
  /\ localDay tz today - Z.of_nat count < localDay tz (timestamp e) <= localDay tz today
  /\ In (category e) Part000.categories.
Proof.
  intros Hv. induction count as [|i IH]; intros Hin; [destruct Hin|].
  cbn [dummyDays] in Hin. apply in_app_or in Hin. destruct Hin as [Hin|Hin].
  - destruct (dummyDay_entries tz (random i) 0 _ e (proj2 (Hv i)) Hin)
      as ((k & _ & Hid) & Hd & Hcat).
    rewrite addDays_localDay in Hd.
    split; [exists k; exact Hid|]. split; [lia|exact Hcat].
  - destruct (IH Hin) as (Hid & Hd & Hcat). split; [exact Hid|]. split; [lia|exact Hcat].
Qed.

Lemma dummyDays_NoDup (tz today : Z) (random : nat -> list Part000.Draw) (count : nat) :
  validRandom random -> NoDup (ids (dummyDays tz today random count)).
Proof.
  intros Hv. induction count as [|i IH]; [constructor|].
  cbn [dummyDays]. unfold ids. rewrite map_app. apply NoDup_app.
  - apply dummyDay_NoDup. apply Hv.
  - exact IH.
  - intros s Hs1 Hs2.
    apply in_map_iff in Hs1. destruct Hs1 as (e1 & He1 & Hin1).
    apply in_map_iff in Hs2. destruct Hs2 as (e2 & He2 & Hin2).
    destruct (dummyDay_entries tz (random i) 0 _ e1 (proj2 (Hv i)) Hin1)
      as ((k1 & _ & Hid1) & Hd1 & _).
    destruct (dummyDays_entries tz today random i e2 Hv Hin2) as ((k2 & Hid2) & Hd2 & _).
    rewrite addDays_localDay in Hd1.
    rewrite Hid1 in He1. rewrite Hid2, <- He1 in He2.
    apply dummyId_inj in He2. destruct He2 as [Ht _]. rewrite Ht in Hd2. lia.
Qed.

Lemma dummyDays_length (tz today : Z) (random : nat -> list Part000.Draw) (count : nat) :
  validRandom random -> (List.length (dummyDays tz today random count) <= 5 * count)%nat.
Proof.
  intros Hv. induction count as [|i IH]; [apply Nat.le_refl|].
  cbn [dummyDays]. rewrite length_app.
  assert (Hd : forall draws j date, List.length (dummyDay tz draws j date) = List.length draws).
  { induction draws as [|d draws IHd]; intros j date; [reflexivity|].
    cbn [dummyDay List.length]. f_equal. apply IHd. }
  rewrite Hd. pose proof (proj1 (Hv i)). lia.
Qed.

(** X22.  [generateDummyData] replaces the store, in either mode and whether or
    not local storage accepts the write, by at most 150 sample entries whose
    ids are pairwise distinct, whose categories are among the four known ones
    and whose timestamps fall on the 30 local days that end with today. *)
Theorem generateDummyData_sample (tz today : Z) (random : nat -> list Part000.Draw)
        (env : Part000.Env) (st : Part000.State) :
  validRandom random ->
  let es := entries (Part000.currentData
                       (fst (Part000.generateDummyData tz today random env st))) in
  NoDup (ids es)
  /\ (List.length es <= 150)%nat
  /\ Forall (fun e => In (category e) ["beer"; "wine"; "liquor"; "smoking"]
                      /\ localDay tz today - 30 < localDay tz (timestamp e) <= localDay tz today)
            es.
Proof.
  intros Hv. cbv zeta.
  assert (Hes : entries (Part000.currentData
                           (fst (Part000.generateDummyData tz today random env st)))
                = dummyDays tz today random 30).
  { unfold Part000.generateDummyData, Part000.saveDataLocal.
    rewrite generateDummyData_days_unfold. cbn [app].
    destruct (Part000.setItem env); reflexivity. }
  rewrite Hes. split; [apply dummyDays_NoDup; exact Hv|].
  split; [apply (dummyDays_length tz today random 30 Hv)|].
  apply Forall_forall. intros e He.
  destruct (dummyDays_entries tz today random 30 e Hv He) as (_ & Hd & Hcat).
  split; [exact Hcat|exact Hd].
Qed.

Lemma generateDummyData_sample_witness :
  NoDup (ids (entries (Part000.currentData
    (fst (Part000.generateDummyData 0 1704888000000
            (fun i => if Nat.eqb i 0 then [Part000.mkDraw 0 10 5; Part000.mkDraw 3 23 59] else [])
            savesSucceed localEmpty))))).
Proof.
  apply (generateDummyData_sample 0 1704888000000
           (fun i => if Nat.eqb i 0 then [Part000.mkDraw 0 10 5; Part000.mkDraw 3 23 59] else [])
           savesSucceed localEmpty).
  intros i. destruct (Nat.eqb i 0); split; cbn; try lia.
  - repeat constructor; cbn; lia.
  - constructor.
Defined.

(** ** More on the window and the summary *)

(** X9.  The window never reaches beyond today: in both files its end is at
    most the last millisecond of the local day of now.  In [part_000], when
    there are events, it also ends at most [period - 1] days after its
    start. *)
Theorem window_end_not_after_today (tz : Z) (es : list Entry) (period now : Z) :
  endDate (AppJs.updateChart tz es period now) <= setHours tz now 23 59 59 999
  /\ endDate (Part000.updateChart tz es period now) <= setHours tz now 23 59 59 999
  /\ (es <> [] ->
      endDate (Part000.updateChart tz es period now)
      <= addDays (startDate (Part000.updateChart tz es period now)) (period - 1)).
Proof.
  split; [apply setHours_endOfDay_ge|].
  rewrite Part000_updateChart_endDate, Part000_updateChart_startDate.
  destruct es as [|e0 es'].
  - rewrite Part000_dateRange_empty. cbn [fst snd].
    split; [apply Z.le_refl|]. intros H. contradiction.
  - destruct (Part000_dateRange_nonempty tz (e0 :: es') period now) as (m & _ & _ & Hr);
      [discriminate|].
    rewrite Hr. cbn [fst snd].
    destruct (Z.ltb_spec (addDays (setHours tz (timestamp m) 0 0 0 0) (period - 1))
                (setHours tz now 23 59 59 999)); (split; [lia|intros _; lia]).
Qed.

(** X3.  With the browser in the zone UTC and a period of at most 30 days, in
    both files, the day buckets of one pass of [updateChart] add up, category
    by category, to the per-category counts of the summary. *)
Theorem day_mode_conserves_in_utc (es : list Entry) (period now : Z) :
  period <= 30 ->
  forall pass,
    pass = Part000.updateChart 0 es period now \/ pass = AppJs.updateChart 0 es period now ->
    list_sum (beer (aggregatedData pass)) = stats_beer (summary pass)
    /\ list_sum (wine (aggregatedData pass)) = stats_wine (summary pass)
    /\ list_sum (liquor (aggregatedData pass)) = stats_liquor (summary pass)
    /\ list_sum (smoking (aggregatedData pass)) = stats_smoking (summary pass).
Proof.
  intros Hp pass [-> | ->].
  - apply Part000_day_mode_conserves_in_utc. exact Hp.
  - unfold AppJs.updateChart.
    destruct (Z.leb_spec period 30) as [_|Hgt]; [|lia].
    cbn [aggregatedData summary]. rewrite aggregateByDay_spec, pushAll_spec.
    cbn [labels beer wine liquor smoking emptyChartData app
         AppJs.renderSummaryStats countStats stats_beer stats_wine stats_liquor stats_smoking].
    repeat split;
      (erewrite map_ext by (intros d; apply countCategory_dayEntriesOf));
      apply day_buckets_conserve_in_utc; intros e He;
      apply (filterRange_In es _ _ e He).
Qed.

Lemma day_mode_conserves_in_utc_witness :
  list_sum (wine (aggregatedData
     (AppJs.updateChart 0 [mkEntry "1704535200000" 1704535200000 "wine"] 7 1704888000000)))
  = stats_wine (summary
     (AppJs.updateChart 0 [mkEntry "1704535200000" 1704535200000 "wine"] 7 1704888000000)).
Proof.
  assert (Hp : 7 <= 30) by lia.
  exact (proj1 (proj2 (day_mode_conserves_in_utc
                         [mkEntry "1704535200000" 1704535200000 "wine"] 7 1704888000000 Hp
                         _ (or_intror eq_refl)))).
Defined.

Lemma known_category_count (e : Entry) :
  ((if (category e =? "beer")%string then 1 else 0)
   + (if (category e =? "wine")%string then 1 else 0)
   + (if (category e =? "liquor")%string then 1 else 0)
   + (if (category e =? "smoking")%string then 1 else 0))%nat
  = if existsb (String.eqb (category e)) ["beer"; "wine"; "liquor"; "smoking"]
    then 1%nat else O.
Proof.
  cbn [existsb].
  destruct (String.eqb_spec (category e) "beer") as [->|];
    destruct (String.eqb_spec (category e) "wine") as [Hw|];
    destruct (String.eqb_spec (category e) "liquor") as [Hl|];
    destruct (String.eqb_spec (category e) "smoking") as [Hs|];
    try discriminate; try reflexivity;
    try (rewrite Hw in *; discriminate); try (rewrite Hl in *; discriminate).
Qed.

(** X23.  The total of the summary of [part_000] is the number of events whose
    category is one of the four known ones: an event of any other category is
    counted on no card, and the total is at most the number of events. *)
Theorem Part000_total_counts_known_categories (es : list Entry) :
  total (Part000.renderSummaryStats es)
  = List.length (filter (fun e => existsb (String.eqb (category e))
                                    ["beer"; "wine"; "liquor"; "smoking"]) es)
  /\ (total (Part000.renderSummaryStats es) <= List.length es)%nat.
Proof.
  assert (H : total (Part000.renderSummaryStats es)
              = List.length (filter (fun e => existsb (String.eqb (category e))
                                                ["beer"; "wine"; "liquor"; "smoking"]) es)).
  { cbn [Part000.renderSummaryStats countStats total].
    induction es as [|e es IH]; [reflexivity|].
    rewrite !countCategory_cons. cbn [filter].
    pose proof (known_category_count e) as Hk.
    destruct (existsb (String.eqb (category e)) ["beer"; "wine"; "liquor"; "smoking"]);
      cbn [List.length]; lia. }
  split; [exact H|]. rewrite H. apply filter_length_le.
Qed.

(** ** [app.js] against [part_000] *)

(** X24.  Every handler of [app.js] is the GitHub-mode branch of the handler of
    the same name in [part_000]: started from the same configuration, data
    and status, with the same answers of the server, [saveData], [addEntry],
    [deleteEntry] and [loadData] end in the same state and in the same way. *)
Theorem AppJs_handlers_are_github_mode (put : PutBody -> PutResult) (st : AppJs.State) :
  (forall newEntries,
      Part000.saveData (envOfAppJs put) newEntries (ofAppJs st)
      = ofAppJsResult (AppJs.saveData put newEntries st))
  /\ (forall dateNow newDate cat,
         Part000.addEntry dateNow newDate (envOfAppJs put) cat (ofAppJs st)
         = ofAppJsResult (AppJs.addEntry dateNow newDate put cat st))
  /\ (forall confirmed i,
         Part000.deleteEntry confirmed (envOfAppJs put) i (ofAppJs st)
         = ofAppJsResult (AppJs.deleteEntry confirmed put i st))
  /\ (forall GET,
         Part000.loadData GET (envOfAppJs put) (ofAppJs st)
         = ofAppJsResult (AppJs.loadData GET put st)).
Proof.
  split; [intros; apply AppJs_saveData_sim|].
  split; [intros; apply AppJs_addEntry_sim|].
  split; [intros; apply AppJs_deleteEntry_sim|intros; apply AppJs_loadData_sim].
Qed.

Lemma window_end_not_after_today_witness :
  endDate (Part000.updateChart 0 [mkEntry "a" 1704243600000 "beer"] 7 1704888000000)
  <= addDays (startDate (Part000.updateChart 0 [mkEntry "a" 1704243600000 "beer"] 7
                           1704888000000)) (7 - 1).
Proof.
  assert (Hne : [mkEntry "a" 1704243600000 "beer"] <> []) by discriminate.
  exact (proj2 (proj2 (window_end_not_after_today 0 [mkEntry "a" 1704243600000 "beer"] 7
                         1704888000000)) Hne).
Defined.

(** ** The configuration *)

(** X25.  [saveConfig] writes the three fields into the in-memory
    configuration before it checks them.  With a blank field it shows an
    error, leaves the stored configuration as it was and does not reload, but
    the credentials in memory are now incomplete: in GitHub mode every
    [addEntry] that follows is refused with an error status and leaves the
    store unchanged, whatever the server would answer, even if the
    configuration was complete before. *)
Theorem saveConfig_blank_field_blocks_adds
        (tokenField ownerField repoField : string) (setItemResult : SetItemResult)
        (storedConfig : option Part000.Config) (st : Part000.State) :
  tokenField = "" \/ ownerField = "" \/ repoField = "" ->
  Part000.isLocal st = false ->
  let '(st1, stored1, reloads, completion) :=
    Part000.saveConfig tokenField ownerField repoField setItemResult storedConfig st in
  stored1 = storedConfig /\ reloads = false /\ completion = Returned
  /\ reportsError (Part000.status st1)
  /\ Part000.isConfigured st1 = false
  /\ forall dateNow newDate env cat,
      let r := Part000.addEntry dateNow newDate env cat st1 in
      Part000.currentData (fst r) = Part000.currentData st
      /\ reportsError (Part000.status (fst r)).
Proof.
  intros Hblank Hl. unfold Part000.saveConfig.
  assert (Hb : negb (truthy tokenField) || negb (truthy ownerField) || negb (truthy repoField)
               = true).
  { destruct Hblank as [-> | [-> | ->]]; cbn; rewrite ?orb_true_r; reflexivity. }
  rewrite Hb.
  assert (Hc : truthy tokenField && truthy ownerField && truthy repoField = false).
  { destruct Hblank as [-> | [-> | ->]]; cbn; rewrite ?andb_false_r; reflexivity. }
  split; [reflexivity|]. split; [reflexivity|]. split; [reflexivity|].
  split; [eexists; reflexivity|]. split; [exact Hc|].
  intros dateNow newDate env cat. cbv zeta. unfold Part000.addEntry.
  replace (Part000.isLocal _) with false by (symmetry; exact Hl).
  replace (Part000.isConfigured _) with false by (symmetry; exact Hc).
  cbn. split; [reflexivity|eexists; reflexivity].
Qed.

Lemma saveConfig_blank_field_blocks_adds_witness :
  Part000.isConfigured
    (fst (fst (fst (Part000.saveConfig "" "o" "r" Stored (Some (Part000.config githubEmpty))
                      githubEmpty))))
  = false.
Proof.
  pose proof (saveConfig_blank_field_blocks_adds "" "o" "r" Stored
                (Some (Part000.config githubEmpty)) githubEmpty
                (or_introl eq_refl) eq_refl) as H.
  destruct (Part000.saveConfig "" "o" "r" Stored (Some (Part000.config githubEmpty)) githubEmpty)
    as [[[st1 stored1] reloads] completion].
  exact (proj1 (proj2 (proj2 (proj2 (proj2 H))))).
Defined.

(** X26.  A configuration saved with three non-blank fields survives a
    reload of the page: [loadConfig] on the stored value gives back the three
    fields, the credentials count as complete, and the mode is the one the
    page was in, or local if that mode was the empty string. *)
Theorem saveConfig_then_loadConfig (tokenField ownerField repoField : string)
        (storedConfig : option Part000.Config) (st fresh : Part000.State) :
  tokenField <> "" -> ownerField <> "" -> repoField <> "" ->
  let '(st1, stored1, reloads, completion) :=
    Part000.saveConfig tokenField ownerField repoField Stored storedConfig st in
  let c := Part000.config (Part000.loadConfig stored1 fresh) in
  reloads = true /\ completion = Returned
  /\ Part000.token c = tokenField /\ Part000.owner c = ownerField
  /\ Part000.repo c = repoField
  /\ Part000.mode c = (if truthy (Part000.mode (Part000.config st))
                       then Part000.mode (Part000.config st) else "local")
  /\ Part000.isConfigured (Part000.loadConfig stored1 fresh) = true
  /\ Part000.isConfigured st1 = true.
Proof.
  intros Ht Ho Hr. unfold Part000.saveConfig.
  assert (Htt : truthy tokenField = true)
    by (unfold truthy; destruct (String.eqb_spec tokenField ""); [contradiction|reflexivity]).
  assert (Hto : truthy ownerField = true)
    by (unfold truthy; destruct (String.eqb_spec ownerField ""); [contradiction|reflexivity]).
  assert (Htr : truthy repoField = true)
    by (unfold truthy; destruct (String.eqb_spec repoField ""); [contradiction|reflexivity]).
  rewrite Htt, Hto, Htr. cbn [negb orb].
  unfold Part000.isConfigured. cbn. rewrite Htt, Hto, Htr. repeat split.
Qed.

Lemma saveConfig_then_loadConfig_witness :
  Part000.isConfigured
    (Part000.loadConfig
       (snd (fst (fst (Part000.saveConfig "t" "o" "r" Stored None localEmpty)))) githubEmpty)
  = true.
Proof.
  pose proof (saveConfig_then_loadConfig "t" "o" "r" None localEmpty githubEmpty
                ltac:(discriminate) ltac:(discriminate) ltac:(discriminate)) as H.
  destruct (Part000.saveConfig "t" "o" "r" Stored None localEmpty)
    as [[[st1 stored1] reloads] completion].
  exact (proj1 (proj2 (proj2 (proj2 (proj2 (proj2 (proj2 H))))))).
Defined.

(** ** Week buckets and table rows at the days the code misses *)

(** C4, on [part_000] in the zone UTC, period 90, now 2024-01-20 12:00: a
    wine on Monday 2024-01-08 09:00 and a beer on Saturday 2024-01-13 23:00.
    The buckets start on the Sundays Jan 7 and Jan 14.  Both events lie in the
    week of Jan 7: the wine on its second day, the beer on the day
    [bucketStart + 6 days].  The bucket counts the wine and not the beer: its
    upper bound is the midnight that opens the Saturday, and the rest of the
    Saturday belongs to no bucket. *)
Theorem C4_week_bucket_misses_its_saturday :
  let monday := mkEntry "1704704400000" 1704704400000 "wine" in
  let saturday := mkEntry "1705186800000" 1705186800000 "beer" in
  let pass := Part000.updateChart 0 [monday; saturday] 90 1705752000000 in
  let bucketStart := weekLoopStart 0 (startDate pass) in
  filteredEntries pass = [monday; saturday]
  /\ labels (aggregatedData pass) = ["Jan 7"; "Jan 14"]
  /\ shortDate 0 bucketStart = "Jan 7"
  /\ localDay 0 (timestamp monday) = localDay 0 bucketStart + 1
  /\ localDay 0 (timestamp saturday) = localDay 0 bucketStart + 6
  /\ wine (aggregatedData pass) = [1%nat; 0%nat]
  /\ beer (aggregatedData pass) = [0%nat; 0%nat].
Proof. vm_compute. repeat split. Qed.

(** C10, on [part_000] in the zone UTC+9 (Asia/Tokyo, no daylight saving),
    period 7: the only event is a beer on 2024-01-03 at 10:00 local time.
    With now on 2024-01-05 the table has one row, dated Jan 4, a day without
    any event, and no row for Jan 3; with now on 2024-01-03 the table shows
    "No data for this period" although the window holds the event.  The rows
    are matched by UTC date, as the day buckets of the chart are. *)
Theorem C10_table_row_on_a_day_without_events :
  let tokyo := 32400000 in
  let e := mkEntry "1704243600000" 1704243600000 "beer" in
  shortDate tokyo (timestamp e) = "Jan 3"
  /\ filteredEntries (Part000.updateChart tokyo [e] 7 1704423600000) = [e]
  /\ tableRows (Part000.renderTableView tokyo [e] 7 1704423600000)
     = [Part000.mkDayRow 1704294000000 1 0 0 0 1]
  /\ shortDate tokyo 1704294000000 = "Jan 4"
  /\ filteredEntries (Part000.updateChart tokyo [e] 7 1704250800000) = [e]
  /\ Part000.renderTableView tokyo [e] 7 1704250800000 = Part000.NoData.
Proof. vm_compute. repeat split. Qed.
